(** * device-gpiod: the pump sequencer, the traffic-light indicators and the
      connectivity watchdog

    A shallow embedding of [driver/simpledriver.go], [driver/trafficLight.go],
    the connectivity file of package [driver] and [gpio/gpio.go].

    - Go's [int64] and [time.Duration] are [Z]; [wrap64] is written where the
      source multiplies or subtracts at run time.
    - The package-level pointers [green], [yellow], [red] are cells holding
      [option lights]; [None] is Go's [nil], and reading or writing a field
      through [nil] ends the run with [Panic].
    - The gpiod library, the clock, the device registry and the HTTP probes
      are the environment: their answers are inputs of the model.
    - What a task does to the outside (line requests, sleeps, telemetry,
      channel pushes, spawned goroutines) is appended to a trace. *)

From Stdlib Require Import ZArith List Ascii String Bool Lia.
Import ListNotations.
Open Scope Z_scope.

(** ** Go's [time] package, as far as the driver uses it *)

Module Time.

(** [type Duration int64], counted in nanoseconds. *)
Definition Duration := Z.

Definition Nanosecond : Duration := 1.
Definition Second : Duration := 1000000000.
Definition Minute : Duration := 60 * Second.

(** Two's-complement wrap-around of run-time [int64] arithmetic. *)
Definition wrap64 (z : Z) : Z := (z + 2 ^ 63) mod 2 ^ 64 - 2 ^ 63.

(** [int64(d.Seconds())]: [Seconds] is [float64(d/Second) +
    float64(d%Second)/1e9] and the conversion truncates toward zero.  The
    sum is below the next integer whenever [|d|] is under 2^24 seconds
    (about 194 days), so the truncation is [d / Second] rounded toward zero
    there, and this definition is the code's value on that range.  From
    2^24 seconds on the float sum can round to the next integer, and the
    code's value is this one or the integer one further from zero; below,
    the statements over all of [int64] only use the floor of 300 and an
    upper bound, which both values meet, and what depends on the value
    itself is stated for durations under 2^24 seconds. *)
Definition Seconds_int64 (d : Duration) : Z := Z.quot d Second.

End Time.

Import Time.

(** ** Configuration: [Initialize], simpledriver.go lines 87-154 *)

Definition MAX_RETRY : Z := 5.
Definition MIN_PUMP : Z := 5.
Definition MIN_COMMAND_GAP : Duration := 10 * Minute.
Definition MIN_CLEAN_TIMER : Duration := 5 * Minute.
Definition MIN_REVERSE_TIMER : Duration := 5 * Minute.
Definition MIN_GRAVITY_TIMER : Duration := 5 * Minute.
Definition switchingTimer : Duration := 15 * Second.
Definition openingTimer : Duration := 5 * Second.

(** What [time.ParseDuration(os.Getenv(..))] and
    [strconv.ParseBool(os.Getenv(..))] returned for each variable: [None] is
    a non-nil [err] (unset or unparsable text), [Some v] the parsed value,
    which may be zero or negative. *)
Record Environ := mkEnviron {
  PUMP_TIMEOUT : option Duration;
  COMMAND_GAP : option Duration;
  CLEAN_TIMEOUT : option Duration;
  REVERSE_TIMEOUT : option Duration;
  GRAVITY_TIMEOUT : option Duration;
  ENABLE_CLEAN : option bool;
  ENABLE_REVERSE : option bool
}.

(** The package-level flag variables after [Initialize]. [pumpTimer] is an
    [*int64], the four others are [*time.Duration]. *)
Record Flags := mkFlags {
  pumpTimer : Z;
  enableClean : bool;
  enableReverse : bool;
  cleanTimer : Duration;
  reverseTimer : Duration;
  gravityTimer : Duration;
  commandGap : Duration
}.

(** [type Config struct], the value behind [gpioConfig]. *)
Record Config := mkConfig {
  PumpTimer : Duration;
  EnableClean : bool;
  CleanTimer : Duration;
  EnableReverse : bool;
  ReverseTimer : Duration;
  GravityTimer : Duration;
  CommandGap : Duration
}.

(** Lines 87-96.  The seconds of the parsed value are [Seconds_int64], with
    the range given there. *)
Definition init_pumpTimer (parsed : option Duration) : Z :=
  match parsed with
  | None => 5 * Minute                       (* int64(time.Duration(5) * time.Minute) *)
  | Some pump =>
      let t := Seconds_int64 pump in
      if t <? MIN_PUMP * Seconds_int64 Minute
      then MIN_PUMP * Seconds_int64 Minute
      else t
  end.

(** The pattern of lines 98-132: parse, default on error, then clamp. *)
Definition init_duration (parsed : option Duration) (dflt floor : Duration)
  : Duration :=
  let d := match parsed with None => dflt | Some d => d end in
  if d <? floor then floor else d.

(** Lines 134-144. *)
Definition init_bool (parsed : option bool) : bool :=
  match parsed with None => false | Some b => b end.

Definition init_flags (e : Environ) : Flags :=
  {| pumpTimer := init_pumpTimer (PUMP_TIMEOUT e);
     commandGap := init_duration (COMMAND_GAP e) (60 * Minute) MIN_COMMAND_GAP;
     cleanTimer := init_duration (CLEAN_TIMEOUT e) (5 * Minute) MIN_CLEAN_TIMER;
     reverseTimer :=
       init_duration (REVERSE_TIMEOUT e) (5 * Minute) MIN_REVERSE_TIMER;
     gravityTimer :=
       init_duration (GRAVITY_TIMEOUT e) (5 * Minute) MIN_GRAVITY_TIMER;
     enableClean := init_bool (ENABLE_CLEAN e);
     enableReverse := init_bool (ENABLE_REVERSE e) |}.

(** Lines 146-154: [gpioConfig] is built from the flag variables;
    [PumpTimer] is [time.Duration] applied to the [int64] behind [pumpTimer]. *)
Definition init_config (f : Flags) : Config :=
  {| PumpTimer := pumpTimer f;
     EnableClean := enableClean f;
     CleanTimer := cleanTimer f;
     EnableReverse := enableReverse f;
     ReverseTimer := reverseTimer f;
     GravityTimer := gravityTimer f;
     CommandGap := commandGap f |}.

Definition Initialize (e : Environ) : Flags * Config :=
  let f := init_flags e in (f, init_config f).

(** ** Lines and the gpiod library: gpio/gpio.go *)

Definition error := string.

(** [type GPIO struct].  The two line handles are opened and closed inside
    every [Up] and [Down] and nothing in package [driver] reads them; they
    are not carried here. *)
Record GPIO := mkGPIO {
  Name : string;
  Chip : string;
  Line : Z;
  State : bool
}.

(** The answers of the gpiod library.  [n] counts the calls of [GPIO.Up] and
    [GPIO.Down] made so far, so that a line may fail at one attempt and work
    at the next.  [RequestLine n chip line v] is the error of
    [gpiod.RequestLine(chip, line, gpiod.AsOutput(v))], [CloseLine] the one of
    closing the handle just obtained. *)
Record Hardware := mkHardware {
  RequestLine : nat -> string -> Z -> Z -> option error;
  CloseLine : nat -> string -> Z -> option error
}.

(** [setupOutputLine(state)] then [releaseLine()], as [Up] (state 1) and
    [Down] (state 0) chain them: the first error is returned. *)
Definition setupOutputLine (hw : Hardware) (n : nat) (g : GPIO) (state : Z)
  : option error :=
  RequestLine hw n (Chip g) (Line g) state.

Definition releaseLine (hw : Hardware) (n : nat) (g : GPIO) : option error :=
  CloseLine hw n (Chip g) (Line g).

Definition GPIO_set (hw : Hardware) (n : nat) (g : GPIO) (state : Z)
  : option error :=
  match setupOutputLine hw n g state with
  | Some err => Some err
  | None =>
      match releaseLine hw n g with
      | Some err => Some err
      | None => None
      end
  end.

(** ** Indicators: the data of trafficLight.go *)

(** A [rune] is its code point. *)
Definition rune := Z.
Definition rune_G : rune := 71.
Definition rune_Y : rune := 89.
Definition rune_R : rune := 82.

(** [type lights struct]. *)
Record lights := mkLights {
  flashing : bool;
  status : bool;
  color : rune;
  gpio : GPIO
}.

(** The three colours the switches of trafficLight.go know. *)
Inductive Color := Green | Yellow | Red.

Definition rune_of (c : Color) : rune :=
  match c with Green => rune_G | Yellow => rune_Y | Red => rune_R end.

Definition color_of (r : rune) : option Color :=
  if r =? rune_G then Some Green
  else if r =? rune_Y then Some Yellow
  else if r =? rune_R then Some Red
  else None.

(** ** What a task does to the outside *)

Inductive Event :=
| EvLine (chip : string) (line : Z) (state : Z) (err : option error)
    (* one call of GPIO.Up (state 1) or GPIO.Down (state 0) and its result *)
| EvSleep (d : Duration)                      (* time.Sleep(d) *)
| EvTelemetry (g : GPIO)                      (* handleAsyncCommunication(g) *)
| EvSetFlash (c : rune) (on : bool)           (* SetFlashOn(c), SetFlashOff(c) *)
| EvGoFlashing (c : rune)                     (* go Flashing(c) *)
| EvPush (connection : bool)                  (* pushConnectionStatus *)
| EvLogRemaining (seconds : Z).               (* the hold branch's log line *)

(** The shared state of the process: the three package-level pointers of
    trafficLight.go, the number of line actuations so far and the trace. *)
Record World := mkWorld {
  green : option lights;
  yellow : option lights;
  red : option lights;
  calls : nat;
  trace : list Event
}.

(** Before anything ran: [var green, yellow, red *lights] are nil. *)
Definition boot : World :=
  {| green := None; yellow := None; red := None; calls := 0%nat; trace := [] |}.

(** ** A state monad with the two ways a Go process ends early *)

Inductive Outcome (A : Type) :=
| Done (a : A) (w : World)
| Panic (w : World)            (* nil pointer dereference *)
| Exit (code : Z) (w : World). (* os.Exit(code) *)

Arguments Done {A} a w.
Arguments Panic {A} w.
Arguments Exit {A} code w.

Definition M (A : Type) := World -> Outcome A.

Definition ret {A} (a : A) : M A := fun w => Done a w.

Definition bind {A B} (m : M A) (k : A -> M B) : M B :=
  fun w =>
    match m w with
    | Done a w' => k a w'
    | Panic w' => Panic w'
    | Exit c w' => Exit c w'
    end.

Declare Scope go_scope.
Delimit Scope go_scope with go.
Notation "x <- m ;; k" := (bind m (fun x => k))
  (at level 61, m at next level, right associativity) : go_scope.
Notation "m ;; k" := (bind m (fun _ => k))
  (at level 61, right associativity) : go_scope.
Open Scope go_scope.

Definition emit (e : Event) : M unit :=
  fun w => Done tt {| green := green w; yellow := yellow w; red := red w;
                      calls := calls w; trace := trace w ++ [e] |}.

Definition Sleep (d : Duration) : M unit := emit (EvSleep d).

Definition os_Exit (code : Z) : M unit := fun w => Exit code w.

(** [g.Up()] and [g.Down()] on a line: ask the library, count the call,
    record it. *)
Definition actuate (hw : Hardware) (g : GPIO) (state : Z) : M (option error) :=
  fun w =>
    let err := GPIO_set hw (calls w) g state in
    Done err {| green := green w; yellow := yellow w; red := red w;
                calls := S (calls w);
                trace := trace w ++ [EvLine (Chip g) (Line g) state err] |}.

Definition GPIO_Up (hw : Hardware) (g : GPIO) := actuate hw g 1.
Definition GPIO_Down (hw : Hardware) (g : GPIO) := actuate hw g 0.

(** Reading and writing through one of the three pointers. *)
Definition cell (c : Color) (w : World) : option lights :=
  match c with Green => green w | Yellow => yellow w | Red => red w end.

Definition deref (c : Color) : M lights :=
  fun w => match cell c w with Some l => Done l w | None => Panic w end.

Definition assign (c : Color) (l : lights) : M unit :=
  fun w =>
    match cell c w with
    | None => Panic w
    | Some _ =>
        Done tt
          match c with
          | Green => {| green := Some l; yellow := yellow w; red := red w;
                        calls := calls w; trace := trace w |}
          | Yellow => {| green := green w; yellow := Some l; red := red w;
                         calls := calls w; trace := trace w |}
          | Red => {| green := green w; yellow := yellow w; red := Some l;
                      calls := calls w; trace := trace w |}
          end
    end.

Definition set_status (c : Color) (b : bool) : M unit :=
  l <- deref c ;;
  assign c {| flashing := flashing l; status := b; color := color l;
              gpio := gpio l |}.

Definition set_flashing (c : Color) (b : bool) : M unit :=
  l <- deref c ;;
  assign c {| flashing := b; status := status l; color := color l;
              gpio := gpio l |}.

Definition set_color (c : Color) (r : rune) : M unit :=
  l <- deref c ;;
  assign c {| flashing := flashing l; status := status l; color := r;
              gpio := gpio l |}.

Definition set_gpio (c : Color) (g : GPIO) : M unit :=
  l <- deref c ;;
  assign c {| flashing := flashing l; status := status l; color := color l;
              gpio := g |}.

(** ** trafficLight.go *)

(** [HandleLight], lines 22-36. *)
Definition HandleLight (g : GPIO) : M unit :=
  if Line g =? 5 then set_color Green rune_G ;; set_gpio Green g
  else if Line g =? 6 then set_color Yellow rune_Y ;; set_gpio Yellow g
  else if Line g =? 7 then set_color Red rune_R ;; set_gpio Red g
  else ret tt.

(** [Up], lines 38-60.  The status flags are written whatever the line
    answered; the error is only returned. *)
Definition Up (hw : Hardware) (color : rune) : M (option error) :=
  if color =? rune_G then
    l <- deref Green ;;
    err <- GPIO_Up hw (gpio l) ;;
    set_status Green true ;;
    set_status Yellow false ;;
    set_status Red false ;;
    ret err
  else if color =? rune_Y then
    l <- deref Yellow ;;
    err <- GPIO_Up hw (gpio l) ;;
    set_status Yellow true ;;
    set_status Red false ;;
    set_status Green false ;;
    ret err
  else if color =? rune_R then
    l <- deref Red ;;
    err <- GPIO_Up hw (gpio l) ;;
    set_status Red true ;;
    set_status Green false ;;
    set_status Yellow false ;;
    ret err
  else ret None.

(** [Down], lines 62-78. *)
Definition Down (hw : Hardware) (color : rune) : M (option error) :=
  if color =? rune_G then
    l <- deref Green ;;
    err <- GPIO_Down hw (gpio l) ;;
    set_status Green false ;;
    ret err
  else if color =? rune_Y then
    l <- deref Yellow ;;
    err <- GPIO_Down hw (gpio l) ;;
    set_status Yellow false ;;
    ret err
  else if color =? rune_R then
    l <- deref Red ;;
    err <- GPIO_Down hw (gpio l) ;;
    set_status Red false ;;
    ret err
  else ret None.

(** [SetFlashOn], lines 111-128. *)
Definition SetFlashOn (color : rune) : M unit :=
  emit (EvSetFlash color true) ;;
  if color =? rune_G then
    set_flashing Green true ;;
    set_flashing Yellow false ;;
    set_flashing Red false
  else if color =? rune_Y then
    set_flashing Yellow true ;;
    set_flashing Green false ;;
    set_flashing Red false
  else if color =? rune_R then
    set_flashing Red true ;;
    set_flashing Green false ;;
    set_flashing Yellow false
  else ret tt.

(** [SetFlashOff], lines 130-141. *)
Definition SetFlashOff (color : rune) : M unit :=
  emit (EvSetFlash color false) ;;
  if color =? rune_G then set_flashing Green false
  else if color =? rune_Y then set_flashing Yellow false
  else if color =? rune_R then set_flashing Red false
  else ret tt.

(** [Flashing], lines 80-109.  The loop is cut into its cycles. *)
Inductive LoopCtl (A : Type) :=
| Continue
| Return (a : A).

Arguments Continue {A}.
Arguments Return {A} a.

Definition blinkInterval : Duration := 3 * Second.

(** One pass through [for flashingLight.flashing { ... }], the test
    included.  [meanwhile] is what the other goroutines do to the shared
    state while this one is inside [time.Sleep]. *)
Definition Flashing_cycle (hw : Hardware) (color : rune) (flashingLight : Color)
    (meanwhile : M unit) : M (LoopCtl (option error)) :=
  l <- deref flashingLight ;;
  if flashing l then
    err <- Up hw color ;;
    match err with
    | Some e => ret (Return (Some e))
    | None =>
        Sleep blinkInterval ;;
        meanwhile ;;
        err <- Down hw color ;;
        match err with
        | Some e => ret (Return (Some e))
        | None => ret Continue
        end
    end
  else ret (Return None).

(** The loop, for at most [fuel] cycles; [others k] runs during the sleep of
    cycle [k].  [None] says the task is still looping when the fuel is gone,
    [Some err] is the value the function returned. *)
Fixpoint Flashing_loop (hw : Hardware) (fuel : nat) (color : rune)
    (flashingLight : Color) (others : nat -> M unit) (k : nat)
  : M (option (option error)) :=
  match fuel with
  | O => ret None
  | S fuel' =>
      r <- Flashing_cycle hw color flashingLight (others k) ;;
      match r with
      | Continue => Flashing_loop hw fuel' color flashingLight others (S k)
      | Return e => ret (Some e)
      end
  end.

(** The verb [%c] of package [fmt] on a rune: its UTF-8 encoding, and that
    of U+FFFD for a value that is no code point (negative, above U+10FFFF or
    a surrogate half). *)
Definition utf8 (r : rune) : list Z :=
  if (r <? 0) || (1114111 <? r) || ((55296 <=? r) && (r <=? 57343))
  then [239; 191; 189]
  else if r <=? 127 then [r]
  else if r <=? 2047 then
    [Z.lor 192 (Z.shiftr r 6); Z.lor 128 (Z.land r 63)]
  else if r <=? 65535 then
    [Z.lor 224 (Z.shiftr r 12); Z.lor 128 (Z.land (Z.shiftr r 6) 63);
     Z.lor 128 (Z.land r 63)]
  else
    [Z.lor 240 (Z.shiftr r 18); Z.lor 128 (Z.land (Z.shiftr r 12) 63);
     Z.lor 128 (Z.land (Z.shiftr r 6) 63); Z.lor 128 (Z.land r 63)].

Definition fmt_c (r : rune) : string :=
  fold_right (fun b s => String (ascii_of_N (Z.to_N b)) s) EmptyString (utf8 r).

(** [fmt.Errorf] with the format [unknown color %c], line 93. *)
Definition unknown_color (color : rune) : error :=
  ("unknown color " ++ fmt_c color)%string.

Definition Flashing (hw : Hardware) (fuel : nat) (others : nat -> M unit)
    (color : rune) : M (option (option error)) :=
  match color_of color with
  | None => ret (Some (Some (unknown_color color)))
  | Some flashingLight => Flashing_loop hw fuel color flashingLight others 0%nat
  end.

(** A task running alone: nothing else touches the shared state. *)
Definition undisturbed : nat -> M unit := fun _ => ret tt.

(** ** The connectivity watchdog *)

Definition pushConnectionStatus (connection : bool) : M unit :=
  emit (EvPush connection).

(** One pass through the loop of [connected]; [probe_err] says whether
    [http.Get] returned a non-nil error. *)
Definition connected_iteration (probe_err : bool) : M unit :=
  (if probe_err then pushConnectionStatus false else ret tt) ;;
  pushConnectionStatus true ;;
  Sleep (30 * Second).

(** One pass through the loop of [ConnectionCheck]: [connAck] is the value
    received from [connectionChannel], the result is the new [checkLoop]. *)
Definition ConnectionCheck_iteration (connAck : bool) (checkLoop : Z) : M Z :=
  if negb connAck && (checkLoop =? 0) then
    SetFlashOn rune_R ;;
    emit (EvGoFlashing rune_R) ;;
    ret 1
  else if connAck then
    SetFlashOff rune_R ;;
    ret 0
  else ret checkLoop.

(** The reporter over the values it receives, in order. *)
Fixpoint ConnectionCheck_loop (received : list bool) (checkLoop : Z) : M Z :=
  match received with
  | [] => ret checkLoop
  | connAck :: rest =>
      checkLoop' <- ConnectionCheck_iteration connAck checkLoop ;;
      ConnectionCheck_loop rest checkLoop'
  end.

(** [ConnectionCheck] starts with [checkLoop := 0]. *)
Definition ConnectionCheck (received : list bool) : M Z :=
  ConnectionCheck_loop received 0.

(** ** The sequencer: [handleStartGpio] and its two sub-pipelines *)

(** The block that follows a failed actuation: [err = Up('R')], two log
    lines, then [return] or [continue]. *)
Definition raise_alarm (hw : Hardware) : M unit :=
  _ <- Up hw rune_R ;; ret tt.

Definition handleAsyncCommunication (g : GPIO) : M unit :=
  emit (EvTelemetry g).

Definition with_State (g : GPIO) (b : bool) : GPIO :=
  {| Name := Name g; Chip := Chip g; Line := Line g; State := b |}.

(** [handleCleanGpio], lines 417-504.  The parameter [light] of the source
    is not used by it and is left out.  [err] is the one variable of the
    source: the result of [clean.Down()] is not assigned to it, so the test
    that follows reads what [Up('Y')] returned. *)
Definition handleCleanGpio (hw : Hardware) (f : Flags)
    (clean openValve switchingValve : GPIO) : M unit :=
  err <- GPIO_Up hw switchingValve ;;
  match err with Some _ => raise_alarm hw | None =>
  Sleep switchingTimer ;;
  err <- GPIO_Up hw openValve ;;
  match err with Some _ => raise_alarm hw | None =>
  Sleep openingTimer ;;
  err <- GPIO_Up hw clean ;;
  match err with Some _ => raise_alarm hw | None =>
  let clean := with_State clean true in
  err <- Up hw rune_Y ;;
  handleAsyncCommunication clean ;;
  Sleep (cleanTimer f) ;;
  _ <- GPIO_Down hw clean ;;
  match err with Some _ => raise_alarm hw | None =>
  let clean := with_State clean false in
  _ <- Down hw rune_Y ;;
  handleAsyncCommunication clean ;;
  err <- GPIO_Down hw openValve ;;
  match err with Some _ => raise_alarm hw | None =>
  Sleep openingTimer ;;
  Sleep (gravityTimer f) ;;
  err <- GPIO_Down hw switchingValve ;;
  match err with Some _ => raise_alarm hw | None =>
  Sleep switchingTimer
  end end end end end end.

(** [handleReverseGpio], lines 373-415.  Here too the result of
    [reverse.Down()] is dropped and [err] still holds the nil of
    [reverse.Up()].  The statement [go Flashing('G')] is the event
    [EvGoFlashing]: the task it starts runs beside the sequencer and is
    [Flashing] above, so this function is the sequencer's own actions, and
    the flags the task writes meanwhile are not part of it. *)
Definition handleReverseGpio (hw : Hardware) (f : Flags)
    (reverse clean openValve switchingValve : GPIO) : M unit :=
  err <- GPIO_Up hw reverse ;;
  match err with Some _ => raise_alarm hw | None =>
  let reverse := with_State reverse true in
  SetFlashOn rune_G ;;
  emit (EvGoFlashing rune_G) ;;
  handleAsyncCommunication reverse ;;
  Sleep (reverseTimer f) ;;
  _ <- GPIO_Down hw reverse ;;
  match err with Some _ => raise_alarm hw | None =>
  let reverse := with_State reverse false in
  SetFlashOff rune_G ;;
  handleAsyncCommunication reverse ;;
  if enableClean f
  then handleCleanGpio hw f clean openValve switchingValve
  else ret tt
  end end.

(** What one pass of the readiness loop (lines 272-310) met. *)
Inductive Probe :=
| RegistryErr               (* ds.GetDeviceByName returned an error *)
| EndpointErr               (* http.Get returned an error *)
| BodyErr (StatusCode : Z)  (* ioutil.ReadAll returned an error *)
| BodyRead.                 (* the response body was read *)

(** The readiness loop over the answers of its successive passes.  The
    result is [startPipeline] and [attempt]; [false] says the loop is still
    waiting when the answers run out. *)
Fixpoint readiness (probes : list Probe) (attempt : Z) : M (bool * Z) :=
  match probes with
  | [] => ret (false, attempt)
  | RegistryErr :: rest =>
      let attempt := attempt + 1 in
      (if attempt >? MAX_RETRY then os_Exit 0 else ret tt) ;;
      Sleep (5 * Second) ;;
      readiness rest attempt
  | EndpointErr :: rest =>
      Sleep (5 * Second) ;;
      readiness rest attempt
  | BodyErr StatusCode :: rest =>
      if StatusCode =? 200 then ret (true, attempt)
      else readiness rest attempt
  | BodyRead :: rest => ret (true, attempt)
  end.

(** The local state of the main loop (lines 313-370): the pump line with its
    [State] and the flag variable [startTs]. *)
Record Pump := mkPump {
  pump_gpio : GPIO;
  startTs : Z
}.

(** One pass through the main loop.  [now] is what [time.Now().Unix()]
    returns where the pass first reads the clock, [now'] what it returns in
    the log line of the hold branch. *)
Definition handleStartGpio_iteration (hw : Hardware) (f : Flags)
    (reverse clean openValve switchingValve : GPIO) (now now' : Z) (p : Pump)
  : M Pump :=
  let gpio := pump_gpio p in
  if negb (State gpio) then
    err <- GPIO_Up hw gpio ;;
    match err with
    | Some _ =>
        raise_alarm hw ;;
        Sleep Second ;;
        ret p
    | None =>
        let gpio := with_State gpio true in
        _ <- Up hw rune_G ;;
        handleAsyncCommunication gpio ;;
        ret {| pump_gpio := gpio; startTs := now |}
    end
  else
    if wrap64 (now - startTs p) >=? pumpTimer f then
      err <- GPIO_Down hw gpio ;;
      match err with
      | Some _ =>
          raise_alarm hw ;;
          Sleep Second ;;
          ret p
      | None =>
          let gpio := with_State gpio false in
          _ <- Down hw rune_G ;;
          (if enableReverse f
           then handleReverseGpio hw f reverse clean openValve switchingValve
           else ret tt) ;;
          handleAsyncCommunication gpio ;;
          Sleep (commandGap f) ;;
          ret {| pump_gpio := gpio; startTs := startTs p |}
      end
    else
      emit (EvLogRemaining
              (wrap64 (pumpTimer f - wrap64 (now' - startTs p)))) ;;
      Sleep (wrap64 (pumpTimer f * Second)) ;;
      ret p.

(** The main loop over the clock readings of its successive passes. *)
Fixpoint handleStartGpio_loop (hw : Hardware) (f : Flags)
    (reverse clean openValve switchingValve : GPIO) (clock : list (Z * Z))
    (p : Pump) : M Pump :=
  match clock with
  | [] => ret p
  | (now, now') :: rest =>
      p' <- handleStartGpio_iteration hw f reverse clean openValve
              switchingValve now now' p ;;
      handleStartGpio_loop hw f reverse clean openValve switchingValve rest p'
  end.

(** ** Observations on the shared state *)

(** All three pointers hold a struct. *)
Definition allocated (w : World) : Prop :=
  green w <> None /\ yellow w <> None /\ red w <> None.

(** All three pointers are nil. *)
Definition unallocated (w : World) : Prop :=
  green w = None /\ yellow w = None /\ red w = None.

(** The solid-on flag of a colour; a nil pointer shows nothing. *)
Definition solid (c : Color) (w : World) : bool :=
  match cell c w with Some l => status l | None => false end.

Definition flashingOf (c : Color) (w : World) : bool :=
  match cell c w with Some l => flashing l | None => false end.



Definition panics {A} (o : Outcome A) : Prop :=
  match o with Panic _ => True | _ => False end.

Definition exits {A} (o : Outcome A) : Prop :=
  match o with Exit _ _ => True | _ => False end.

(** The state an outcome leaves behind. *)
Definition world_of {A} (o : Outcome A) : World :=
  match o with Done _ w | Panic w | Exit _ w => w end.

(** The same pointers are nil in both states. *)
Definition same_pointers (w w' : World) : Prop :=
  forall c, cell c w = None <-> cell c w' = None.

(** A computation that neither allocates nor frees a light, however it
    ends. *)
Definition keeps_pointers {A} (m : M A) : Prop :=
  forall w, same_pointers w (world_of (m w)).

(** A computation that never reaches [os.Exit]. *)
Definition never_exits {A} (m : M A) : Prop :=
  forall w, ~ exits (m w).

(** A gpiod library none of whose calls fails. *)
Definition never_fails (hw : Hardware) : Prop :=
  forall n chip line v,
    RequestLine hw n chip line v = None /\ CloseLine hw n chip line = None.

(** The library in which every call succeeds. *)
Definition reliable : Hardware :=
  {| RequestLine := fun _ _ _ _ => None; CloseLine := fun _ _ _ => None |}.

(** The other goroutines clear the flag of [c] during the sleep of cycle [n]
    and leave the shared state alone before. *)
Definition stop_during (n : nat) (c : Color) : nat -> M unit :=
  fun k => if Nat.eqb k n then SetFlashOff (rune_of c) else ret tt.

(** The trace of one full blink of a line that works. *)
Definition blink (g : GPIO) : list Event :=
  [EvLine (Chip g) (Line g) 1 None; EvSleep blinkInterval;
   EvLine (Chip g) (Line g) 0 None].

Fixpoint blinks (n : nat) (g : GPIO) : list Event :=
  match n with
  | O => []
  | S n' => blink g ++ blinks n' g
  end.

(** The last blink of a task whose flag is cleared while it sleeps. *)
Definition last_blink (c : Color) (g : GPIO) : list Event :=
  [EvLine (Chip g) (Line g) 1 None; EvSleep blinkInterval;
   EvSetFlash (rune_of c) false; EvLine (Chip g) (Line g) 0 None].

(** The cycle as the specification words it: high, wait, low, wait. *)
Definition spec_blink (g : GPIO) : list Event :=
  [EvLine (Chip g) (Line g) 1 None; EvSleep blinkInterval;
   EvLine (Chip g) (Line g) 0 None; EvSleep blinkInterval].

(** The frame property the specification words for [SetFlashOn]: the
    flashing flags of the two other colours are as before the call. *)
Definition SetFlashOn_keeps_other_flags : Prop :=
  forall (c o : Color) (w w' : World),
    o <> c -> allocated w ->
    SetFlashOn (rune_of c) w = Done tt w' ->
    flashingOf o w' = flashingOf o w.

(** A pass of the readiness loop that found the service not ready. *)
Definition failed_pass (p : Probe) : bool :=
  match p with
  | RegistryErr | EndpointErr => true
  | BodyErr _ | BodyRead => false
  end.

Definition registry_failures (probes : list Probe) : Z :=
  Z.of_nat (List.length (List.filter
    (fun p => match p with RegistryErr => true | _ => false end) probes)).

(** The retry budget as the specification words it: more than [MAX_RETRY]
    failed passes, whichever check failed, end the process with code 0. *)
Definition readiness_budget_covers_both : Prop :=
  forall (probes : list Probe) (w : World),
    forallb failed_pass probes = true ->
    MAX_RETRY < Z.of_nat (List.length probes) ->
    exists w', readiness probes 0 w = Exit 0 w'.



(** The nil dereference as the specification words it: on the nil pointers,
    for every input of every indicator operation. *)
Definition every_call_dereferences_nil : Prop :=
  forall (hw : Hardware) (color : rune) (g : GPIO) (w : World),
    unallocated w ->
    panics (HandleLight g w)
    /\ panics (Up hw color w)
    /\ panics (Down hw color w)
    /\ panics (SetFlashOn color w)
    /\ panics (SetFlashOff color w)
    /\ panics (Flashing hw 1 undisturbed color w).

(** The end of the process as the specification words it: started as the
    process starts, on the nil pointers, the main loop goes through every
    pass, so that the exit of the readiness loop is the only end. *)
Definition budget_exit_is_the_only_end : Prop :=
  forall (hw : Hardware) (f : Flags)
         (reverse clean openValve switchingValve : GPIO)
         (clock : list (Z * Z)) (p : Pump),
    exists p' w',
      handleStartGpio_loop hw f reverse clean openValve switchingValve
        clock p boot = Done p' w'.

(** A computation that, started with the three lights allocated, returns
    and leaves them allocated: it neither dereferences nil nor exits. *)
Definition carries_on {A} (m : M A) : Prop :=
  forall w, allocated w -> exists a w', m w = Done a w' /\ allocated w'.

(** ** Fixtures: a board with its three lights and five lines *)

Definition line_on (name : string) (n : Z) : GPIO :=
  {| Name := name; Chip := "gpiochip0"; Line := n; State := false |}.

Definition light (r : rune) (n : Z) (on blinking : bool) : lights :=
  {| flashing := blinking; status := on; color := r;
     gpio := line_on "light" n |}.

Definition board (gOn yOn rOn gFl yFl rFl : bool) : World :=
  {| green := Some (light rune_G 5 gOn gFl);
     yellow := Some (light rune_Y 6 yOn yFl);
     red := Some (light rune_R 7 rOn rFl);
     calls := 0%nat; trace := [] |}.

Definition dark : World := board false false false false false false.

Definition pump_line := line_on "pump" 17.
Definition reverse_line := line_on "reverse" 18.
Definition clean_line := line_on "clean" 19.
Definition openValve_line := line_on "openValve" 20.
Definition switchingValve_line := line_on "switchingValve" 21.

(** A library under which one actuation fails: [line] driven to [state]. *)
Definition failing (line state : Z) : Hardware :=
  {| RequestLine := fun _ _ l v =>
       if (l =? line) && (v =? state) then Some "request failed"%string
       else None;
     CloseLine := fun _ _ _ => None |}.

(** The flags of a board with both sub-pipelines enabled. *)
Definition both_enabled : Flags :=
  init_flags {| PUMP_TIMEOUT := Some (5 * Minute); COMMAND_GAP := None;
                CLEAN_TIMEOUT := None; REVERSE_TIMEOUT := None;
                GRAVITY_TIMEOUT := None; ENABLE_CLEAN := Some true;
                ENABLE_REVERSE := Some true |}.

(** ** Role resolution: [gpioHandler], simpledriver.go lines 224-257 *)

(** What [os.Getenv] returns for the six names the lines are looked up by;
    an unset variable is the empty string. *)
Record RoleNames := mkRoleNames {
  START_TRIGGER : string;
  REVERSE_TRIGGER : string;
  CLEAN_TRIGGER : string;
  OPEN_VALVE : string;
  SWITCHING_VALVE : string;
  LIGHT : string
}.

(** [strings.Contains(s, substr)]. *)
Definition Contains (s substr : string) : bool :=
  match String.index 0 substr s with
  | Some _ => true
  | None => false
  end.

(** The zero value of [gpio.GPIO], what [var pump, ..., light gpio.GPIO]
    declares. *)
Definition zero_GPIO : GPIO :=
  {| Name := ""; Chip := ""; Line := 0; State := false |}.

(** The six local variables of [gpioHandler]. *)
Record Roles := mkRoles {
  pump_role : GPIO;
  reversePump_role : GPIO;
  clean_role : GPIO;
  openValve_role : GPIO;
  switchingValve_role : GPIO;
  light_role : GPIO
}.

Definition no_roles : Roles :=
  {| pump_role := zero_GPIO; reversePump_role := zero_GPIO;
     clean_role := zero_GPIO; openValve_role := zero_GPIO;
     switchingValve_role := zero_GPIO; light_role := zero_GPIO |}.

(** The body of the [range] loop: the tagless [switch], whose cases are
    tried in order. *)
Definition gpioHandler_case (names : RoleNames) (f : Flags) (r : Roles)
    (gpio : GPIO) : M Roles :=
  let name := Name gpio in
  if String.eqb name (START_TRIGGER names) then
    ret {| pump_role := gpio; reversePump_role := reversePump_role r;
           clean_role := clean_role r; openValve_role := openValve_role r;
           switchingValve_role := switchingValve_role r;
           light_role := light_role r |}
  else if String.eqb name (REVERSE_TRIGGER names) then
    if enableReverse f then
      ret {| pump_role := pump_role r; reversePump_role := gpio;
             clean_role := clean_role r; openValve_role := openValve_role r;
             switchingValve_role := switchingValve_role r;
             light_role := light_role r |}
    else ret r
  else if String.eqb name (CLEAN_TRIGGER names) then
    if enableClean f then
      ret {| pump_role := pump_role r; reversePump_role := reversePump_role r;
             clean_role := gpio; openValve_role := openValve_role r;
             switchingValve_role := switchingValve_role r;
             light_role := light_role r |}
    else ret r
  else if String.eqb name (OPEN_VALVE names) then
    if enableClean f then
      ret {| pump_role := pump_role r; reversePump_role := reversePump_role r;
             clean_role := clean_role r; openValve_role := gpio;
             switchingValve_role := switchingValve_role r;
             light_role := light_role r |}
    else ret r
  else if String.eqb name (SWITCHING_VALVE names) then
    if enableClean f then
      ret {| pump_role := pump_role r; reversePump_role := reversePump_role r;
             clean_role := clean_role r; openValve_role := openValve_role r;
             switchingValve_role := gpio; light_role := light_role r |}
    else ret r
  else if Contains name (LIGHT names) then
    let r' := {| pump_role := pump_role r;
                 reversePump_role := reversePump_role r;
                 clean_role := clean_role r;
                 openValve_role := openValve_role r;
                 switchingValve_role := switchingValve_role r;
                 light_role := gpio |} in
    HandleLight gpio ;;
    ret r'
  else ret r.

Fixpoint gpioHandler_range (names : RoleNames) (f : Flags) (gpios : list GPIO)
    (r : Roles) : M Roles :=
  match gpios with
  | [] => ret r
  | gpio :: rest =>
      r' <- gpioHandler_case names f r gpio ;;
      gpioHandler_range names f rest r'
  end.

(** [gpioHandler] up to the start of the sequencer: the result is what
    [handleStartGpio] is started with, [pump_role] being the value sent on
    [pumpChannel]. *)
Definition gpioHandler (names : RoleNames) (f : Flags) (gpios : list GPIO)
  : M Roles :=
  gpioHandler_range names f gpios no_roles.

(** A line that falls into the light case of the switch. *)
Definition is_light (names : RoleNames) (gpio : GPIO) : bool :=
  negb (String.eqb (Name gpio) (START_TRIGGER names))
  && negb (String.eqb (Name gpio) (REVERSE_TRIGGER names))
  && negb (String.eqb (Name gpio) (CLEAN_TRIGGER names))
  && negb (String.eqb (Name gpio) (OPEN_VALVE names))
  && negb (String.eqb (Name gpio) (SWITCHING_VALVE names))
  && Contains (Name gpio) (LIGHT names).

(** ** The prober as a loop, and what is read off a trace *)

(** [connected] over the results of its successive probes. *)
Fixpoint connected_loop (probe_errs : list bool) : M unit :=
  match probe_errs with
  | [] => ret tt
  | probe_err :: rest =>
      connected_iteration probe_err ;;
      connected_loop rest
  end.

(** The values sent on [connectionChannel], in order. *)
Definition pushed (t : list Event) : list bool :=
  flat_map (fun e => match e with EvPush b => [b] | _ => [] end) t.

(** The flashing goroutines started. *)
Definition flash_tasks (t : list Event) : list rune :=
  flat_map (fun e => match e with EvGoFlashing c => [c] | _ => [] end) t.

Definition sleeps_of (t : list Event) : list Duration :=
  flat_map (fun e => match e with EvSleep d => [d] | _ => [] end) t.

Definition telemetry_of (t : list Event) : list GPIO :=
  flat_map (fun e => match e with EvTelemetry g => [g] | _ => [] end) t.

(** The lines driven, each with the level asked for. *)
Definition lines_of (t : list Event) : list (string * Z * Z) :=
  flat_map (fun e => match e with
                     | EvLine chip line v _ => [(chip, line, v)]
                     | _ => []
                     end) t.

(** ** Relations a computation may keep between the states before and after *)

(** [m] keeps [R] between the state it starts in and the state it leaves,
    however it ends. *)
Definition respects (R : World -> World -> Prop) {A} (m : M A) : Prop :=
  forall w, R w (world_of (m w)).

(** The flashing flags, the colours and the lines of the lights are the
    same, and the same pointers are nil. *)
Definition same_flashing (w w' : World) : Prop :=
  forall c,
    option_map (fun l => (flashing l, color l, gpio l)) (cell c w')
    = option_map (fun l => (flashing l, color l, gpio l)) (cell c w).

(** The status flags and the lines of the lights are the same, the same
    pointers are nil, and no line was driven. *)
Definition same_status (w w' : World) : Prop :=
  calls w' = calls w
  /\ lines_of (trace w') = lines_of (trace w)
  /\ forall c,
       option_map (fun l => (status l, color l, gpio l)) (cell c w')
       = option_map (fun l => (status l, color l, gpio l)) (cell c w).

(** The line [HandleLight] takes for each colour. *)
Definition light_line (c : Color) : Z :=
  match c with Green => 5 | Yellow => 6 | Red => 7 end.

(** A pass of the readiness loop that sets [startPipeline]. *)
Definition starts_pipeline (p : Probe) : bool :=
  match p with
  | BodyRead => true
  | BodyErr StatusCode => StatusCode =? 200
  | RegistryErr | EndpointErr => false
  end.

(** A configured line on which [gpioHandler] calls [HandleLight] with a
    line number the switch of [HandleLight] knows. *)
Definition known_light (names : RoleNames) (gpio : GPIO) : bool :=
  is_light names gpio
  && ((Line gpio =? 5) || (Line gpio =? 6) || (Line gpio =? 7)).

(** The configured line named as the pump trigger. *)
Definition is_pump (names : RoleNames) (gpio : GPIO) : bool :=
  String.eqb (Name gpio) (START_TRIGGER names).

(** The passes followed by a sleep of five seconds. *)
Definition waits (probes : list Probe) : nat :=
  List.length (List.filter failed_pass probes).

(** The line [line] of [chip] is the one [g] drives. *)
Definition on_line (chip : string) (line : Z) (g : GPIO) : bool :=
  String.eqb (Chip g) chip && (Line g =? line).

(** The events that drive the line [line] of [chip] low. *)
Definition lowers (chip : string) (line : Z) (e : Event) : bool :=
  match e with
  | EvLine chip' line' state _ =>
      String.eqb chip' chip && (line' =? line) && (state =? 0)
  | _ => false
  end.

(** The green and the yellow light are not wired to the line. *)
Definition lights_off_line (chip : string) (line : Z) (w : World) : Prop :=
  forall c l, c <> Red -> cell c w = Some l -> on_line chip line (gpio l) = false.

(** From a state where green and yellow are not wired to the line, the
    lights keep their lines and the line is not driven low. *)
Definition never_lowers (chip : string) (line : Z) (w w' : World) : Prop :=
  lights_off_line chip line w ->
  (forall c, option_map gpio (cell c w') = option_map gpio (cell c w))
  /\ filter (lowers chip line) (trace w')
     = filter (lowers chip line) (trace w).

(** Every value the computation returns satisfies [Q]. *)
Definition returns {A} (Q : A -> Prop) (m : M A) : Prop :=
  forall w, match m w with Done a _ => Q a | _ => True end.

(** * Properties *)

(** ** Configuration floors *)

Lemma init_duration_floor (parsed : option Duration) (dflt floor : Duration) :
  floor <= init_duration parsed dflt floor.
Proof.
  unfold init_duration. cbv zeta.
  destruct (_ <? floor) eqn:E; [lia|].
  apply Z.ltb_ge in E. exact E.
Qed.

Lemma init_duration_unparsed (dflt floor : Duration) :
  floor <= dflt -> init_duration None dflt floor = dflt.
Proof.
  intros H. unfold init_duration. cbv zeta.
  destruct (dflt <? floor) eqn:E; [|reflexivity].
  apply Z.ltb_lt in E. lia.
Qed.

(** The count of seconds the sequencer compares the elapsed time with is
    never under 300. *)
Lemma init_pumpTimer_floor (parsed : option Duration) :
  MIN_PUMP * 60 <= init_pumpTimer parsed.
Proof.
  unfold init_pumpTimer. destruct parsed as [pump|].
  - change (MIN_PUMP * Seconds_int64 Minute) with 300.
    change (MIN_PUMP * 60) with 300.
    destruct (Seconds_int64 pump <? 300) eqn:E; [lia|].
    apply Z.ltb_ge in E. exact E.
  - vm_compute. discriminate.
Qed.

(** The four durations kept as [time.Duration] respect their floors, in the
    flag variables and in [gpioConfig] alike, whatever the environment. *)
Lemma Initialize_duration_floors (e : Environ) :
  let (f, cfg) := Initialize e in
  MIN_COMMAND_GAP <= commandGap f /\ MIN_CLEAN_TIMER <= cleanTimer f /\
  MIN_REVERSE_TIMER <= reverseTimer f /\ MIN_GRAVITY_TIMER <= gravityTimer f /\
  CommandGap cfg = commandGap f /\ CleanTimer cfg = cleanTimer f /\
  ReverseTimer cfg = reverseTimer f /\ GravityTimer cfg = gravityTimer f.
Proof.
  simpl. repeat split; apply init_duration_floor.
Qed.

Lemma Seconds_int64_bound (d : Duration) :
  - 2 ^ 63 <= d < 2 ^ 63 -> Seconds_int64 d < 9223372037.
Proof.
  intros H. unfold Seconds_int64, Second.
  change (2 ^ 63) with 9223372036854775808 in H.
  destruct (Z.le_gt_cases 0 d) as [Hd|Hd].
  - rewrite Z.quot_div_nonneg by lia.
    apply Z.div_lt_upper_bound; lia.
  - assert (Z.quot d 1000000000 <= 0); [|lia].
    apply Z.quot_le_upper_bound; lia.
Qed.

(** C1.  The pump duration is kept in two units.  With a parsable
    PUMP_TIMEOUT the flag holds a count of seconds, at least 300, and
    [gpioConfig.PumpTimer] reads that count as nanoseconds: the stored pump
    duration is below the five-minute floor for every value an [int64]
    duration can take.  With an unparsable PUMP_TIMEOUT the flag holds the
    nanoseconds of five minutes, which the sequencer then reads as seconds. *)
Theorem Initialize_pump_units (e : Environ) (d : Duration) :
  - 2 ^ 63 <= d < 2 ^ 63 ->
  PUMP_TIMEOUT e = Some d ->
  PumpTimer (snd (Initialize e)) < MIN_PUMP * Minute
  /\ pumpTimer (fst (Initialize e)) = PumpTimer (snd (Initialize e))
  /\ init_pumpTimer None = 300000000000.
Proof.
  intros Hd He. simpl. rewrite He.
  split; [|split; reflexivity].
  unfold init_pumpTimer.
  pose proof (Seconds_int64_bound d Hd) as Hb.
  change (MIN_PUMP * Seconds_int64 Minute) with 300.
  change (MIN_PUMP * Minute) with 300000000000.
  destruct (Seconds_int64 d <? 300) eqn:E; lia.
Qed.

Lemma Initialize_pump_units_witness :
  let e := {| PUMP_TIMEOUT := Some (10 * Minute); COMMAND_GAP := None;
              CLEAN_TIMEOUT := None; REVERSE_TIMEOUT := None;
              GRAVITY_TIMEOUT := None; ENABLE_CLEAN := None;
              ENABLE_REVERSE := None |} in
  PumpTimer (snd (Initialize e)) = 600
  /\ PumpTimer (snd (Initialize e)) < MIN_PUMP * Minute.
Proof.
  intros e. split; [reflexivity|].
  apply (Initialize_pump_units e (10 * Minute)); [vm_compute; split; congruence | reflexivity].
Defined.

(** ** The hold branch of the main loop *)

(** What the hold branch does, for every clock reading under the pump
    duration: it logs the remaining seconds and sleeps the whole duration. *)
Lemma hold_branch (hw : Hardware) (f : Flags)
    (reverse clean openValve switchingValve : GPIO) (now now' : Z) (p : Pump)
    (w : World) :
  State (pump_gpio p) = true ->
  wrap64 (now - startTs p) < pumpTimer f ->
  exists w',
    handleStartGpio_iteration hw f reverse clean openValve switchingValve
      now now' p w = Done p w'
    /\ trace w' =
       trace w ++ [EvLogRemaining (wrap64 (pumpTimer f - wrap64 (now' - startTs p)));
                   EvSleep (wrap64 (pumpTimer f * Second))]
    /\ green w' = green w /\ yellow w' = yellow w /\ red w' = red w
    /\ calls w' = calls w.
Proof.
  intros Hs Hlt. unfold handleStartGpio_iteration. rewrite Hs. simpl.
  destruct (wrap64 (now - startTs p) >=? pumpTimer f) eqn:E;
    [apply Z.geb_le in E; lia|].
  eexists. split; [reflexivity|]. simpl.
  rewrite <- app_assoc. repeat split.
Qed.

(** C2.  One second after the pump started, with a pump duration of 300
    seconds, the hold branch leaves the pump line alone, logs 299 remaining
    seconds and sleeps 300 seconds, not 299. *)
Theorem hold_sleeps_whole_duration :
  let p := {| pump_gpio := with_State pump_line true; startTs := 1000 |} in
  exists w',
    handleStartGpio_iteration reliable both_enabled reverse_line clean_line
      openValve_line switchingValve_line 1001 1001 p dark = Done p w'
    /\ pumpTimer both_enabled = 300
    /\ trace w' = [EvLogRemaining 299; EvSleep (300 * Second)]
    /\ 300 * Second <> (300 - (1001 - 1000)) * Second.
Proof.
  intros p. eexists. split; [vm_compute; reflexivity|].
  repeat split. vm_compute. discriminate.
Qed.

(** ** The clean and reverse sub-pipelines *)

(** The actuations whose result is tested do end the sub-pipeline: each of
    these runs stops after the failed call and the red alarm.  A run is
    shown by the number of its events and the last of them. *)
Lemma tested_steps_abort :
  let alarm := EvLine "gpiochip0" 7 1 None in
  let run hw :=
    match handleCleanGpio hw both_enabled clean_line openValve_line
            switchingValve_line dark with
    | Done _ w => (List.length (trace w), List.last (trace w) (EvSleep 0))
    | _ => (O, EvSleep 0)
    end in
  let rev hw :=
    match handleReverseGpio hw both_enabled reverse_line clean_line
            openValve_line switchingValve_line dark with
    | Done _ w => trace w
    | _ => []
    end in
  run (failing 21 1) = (2%nat, alarm) /\ run (failing 20 1) = (4%nat, alarm)
  /\ run (failing 19 1) = (6%nat, alarm) /\ run (failing 20 0) = (13%nat, alarm)
  /\ run (failing 21 0) = (16%nat, alarm)
  /\ run reliable = (16%nat, EvSleep switchingTimer)
  /\ rev (failing 18 1) =
     [EvLine "gpiochip0" 18 1 (Some "request failed"%string); alarm].
Proof.
  vm_compute. repeat split.
Qed.

(** C3.  When stopping the clean pump fails and every other line works,
    [handleCleanGpio] goes on: it lowers the yellow light, reports, closes
    the inlet valve, waits for the drain and restores the switching valve,
    and raises no alarm.  In the same way [handleReverseGpio] goes on after
    a failed stop of the reverse pump, into the whole clean sub-pipeline. *)
Theorem failed_pump_stop_is_not_noticed :
  let failed := Some "request failed"%string in
  let clean_steps err :=
    [EvLine "gpiochip0" 21 1 None; EvSleep switchingTimer;
     EvLine "gpiochip0" 20 1 None; EvSleep openingTimer;
     EvLine "gpiochip0" 19 1 None; EvLine "gpiochip0" 6 1 None;
     EvTelemetry (with_State clean_line true);
     EvSleep (cleanTimer both_enabled);
     EvLine "gpiochip0" 19 0 err;
     EvLine "gpiochip0" 6 0 None;
     EvTelemetry (with_State clean_line false);
     EvLine "gpiochip0" 20 0 None; EvSleep openingTimer;
     EvSleep (gravityTimer both_enabled);
     EvLine "gpiochip0" 21 0 None; EvSleep switchingTimer] in
  (exists w',
      handleCleanGpio (failing 19 0) both_enabled clean_line openValve_line
        switchingValve_line dark = Done tt w'
      /\ trace w' = clean_steps failed)
  /\
  (exists w',
      handleReverseGpio (failing 18 0) both_enabled reverse_line clean_line
        openValve_line switchingValve_line dark = Done tt w'
      /\ trace w' =
         [EvLine "gpiochip0" 18 1 None; EvSetFlash rune_G true;
          EvGoFlashing rune_G; EvTelemetry (with_State reverse_line true);
          EvSleep (reverseTimer both_enabled);
          EvLine "gpiochip0" 18 0 failed;
          EvSetFlash rune_G false;
          EvTelemetry (with_State reverse_line false)]
         ++ clean_steps None).
Proof.
  split; eexists; (split; [vm_compute; reflexivity|]); vm_compute; reflexivity.
Qed.

(** ** The connectivity prober *)

(** C4.  A pass of [connected] whose probe failed pushes two values,
    [false] and then [true], before it sleeps; a pass whose probe succeeded
    pushes [true] alone. *)
Theorem connected_pushes (w : World) :
  (exists w',
      connected_iteration true w = Done tt w'
      /\ trace w' = trace w ++ [EvPush false; EvPush true; EvSleep (30 * Second)])
  /\
  (exists w',
      connected_iteration false w = Done tt w'
      /\ trace w' = trace w ++ [EvPush true; EvSleep (30 * Second)]).
Proof.
  split; eexists; (split; [reflexivity|]); simpl;
    repeat rewrite <- app_assoc; reflexivity.
Qed.

(** ** The indicators when the three structs exist *)

Lemma allocated_inv (w : World) :
  allocated w ->
  exists g y r, green w = Some g /\ yellow w = Some y /\ red w = Some r.
Proof.
  destruct w as [[g|] [y|] [r|] n t]; unfold allocated; simpl;
    intros (Hg & Hy & Hr); try congruence.
  now exists g, y, r.
Qed.




(** C8, as worded, fails: with the red light flashing, [SetFlashOn('G')]
    clears the red flag. *)
Lemma SetFlashOn_clears_red_flag : ~ SetFlashOn_keeps_other_flags.
Proof.
  intros H.
  assert (Hw : exists w',
             SetFlashOn (rune_of Green) (board false false false false false true)
             = Done tt w' /\ flashingOf Red w' = false)
    by (eexists; split; reflexivity).
  destruct Hw as (w' & Hrun & Hoff).
  specialize (H Green Red (board false false false false false true) w').
  rewrite Hoff in H.
  assert (false = true); [|discriminate].
  apply H; [discriminate| |exact Hrun].
  unfold allocated; simpl; repeat split; discriminate.
Qed.

(** C8, amended.  [SetFlashOn] of a known colour sets the flashing flag of
    that colour and clears the flashing flags of the two others; the status
    flags, the colours and the lines are as before. *)
Theorem SetFlashOn_is_exclusive (c : Color) (w : World) :
  allocated w ->
  exists w',
    SetFlashOn (rune_of c) w = Done tt w'
    /\ flashingOf c w' = true
    /\ (forall o, o <> c -> flashingOf o w' = false)
    /\ (forall o, solid o w' = solid o w)
    /\ allocated w'
    /\ trace w' = trace w ++ [EvSetFlash (rune_of c) true].
Proof.
  intros Ha.
  destruct (allocated_inv w Ha) as (g & y & r & Hg & Hy & Hr).
  destruct w as [g0 y0 r0 n t]; simpl in Hg, Hy, Hr; subst.
  destruct c; eexists; (split; [reflexivity|]).
  all: unfold flashingOf, solid, allocated; simpl.
  all: repeat split; try congruence.
  all: intros o; destruct o; simpl; congruence.
Qed.

Lemma SetFlashOn_is_exclusive_witness :
  exists w',
    SetFlashOn rune_G (board false false true false true true) = Done tt w'
    /\ flashingOf Green w' = true /\ flashingOf Yellow w' = false
    /\ flashingOf Red w' = false /\ solid Red w' = true.
Proof.
  destruct (SetFlashOn_is_exclusive Green
              (board false false true false true true))
    as (w' & Hrun & Hg & Ho & Hs & _).
  - unfold allocated; simpl; repeat split; discriminate.
  - exists w'. repeat split.
    + exact Hrun.
    + exact Hg.
    + apply Ho; discriminate.
    + apply Ho; discriminate.
    + rewrite Hs. reflexivity.
Defined.

(** ** What no operation does: allocate a light, leave the process *)

Lemma same_pointers_refl (w : World) : same_pointers w w.
Proof. intros c; tauto. Qed.

Lemma same_pointers_trans (w1 w2 w3 : World) :
  same_pointers w1 w2 -> same_pointers w2 w3 -> same_pointers w1 w3.
Proof. intros H12 H23 c. rewrite (H12 c). apply H23. Qed.

Section Preserved.

Context {A B : Type} (m : M A) (k : A -> M B).

Lemma keeps_bind :
  keeps_pointers m -> (forall a, keeps_pointers (k a)) ->
  keeps_pointers (bind m k).
Proof.
  intros Hm Hk w. unfold bind.
  specialize (Hm w). destruct (m w) as [a w1|w1|code w1]; simpl in *; auto.
  eapply same_pointers_trans; [exact Hm|apply Hk].
Qed.

Lemma never_exits_bind :
  never_exits m -> (forall a, never_exits (k a)) -> never_exits (bind m k).
Proof.
  intros Hm Hk w. unfold bind.
  specialize (Hm w). destruct (m w) as [a w1|w1|code w1]; simpl in *; auto.
  apply Hk.
Qed.

End Preserved.

Lemma keeps_ret {A} (a : A) : keeps_pointers (ret a).
Proof. intros w. apply same_pointers_refl. Qed.

Lemma keeps_emit (e : Event) : keeps_pointers (emit e).
Proof. intros w c. destruct c; simpl; tauto. Qed.

Lemma keeps_actuate (hw : Hardware) (g : GPIO) (v : Z) :
  keeps_pointers (actuate hw g v).
Proof. intros w c. destruct c; simpl; tauto. Qed.

Lemma keeps_deref (c : Color) : keeps_pointers (deref c).
Proof.
  intros w. unfold deref. destruct (cell c w); apply same_pointers_refl.
Qed.

Lemma keeps_assign (c : Color) (l : lights) : keeps_pointers (assign c l).
Proof.
  intros w o. unfold assign. destruct (cell c w) eqn:E; simpl; [|tauto].
  destruct c, o; simpl in *; try tauto; rewrite E; split; discriminate.
Qed.

Lemma keeps_os_Exit (code : Z) : keeps_pointers (os_Exit code).
Proof. intros w. apply same_pointers_refl. Qed.

Lemma never_exits_ret {A} (a : A) : never_exits (ret a).
Proof. intros w H; exact H. Qed.

Lemma never_exits_emit (e : Event) : never_exits (emit e).
Proof. intros w H; exact H. Qed.

Lemma never_exits_actuate (hw : Hardware) (g : GPIO) (v : Z) :
  never_exits (actuate hw g v).
Proof. intros w H; exact H. Qed.

Lemma never_exits_deref (c : Color) : never_exits (deref c).
Proof. intros w. unfold deref. destruct (cell c w); intros H; exact H. Qed.

Lemma never_exits_assign (c : Color) (l : lights) : never_exits (assign c l).
Proof. intros w. unfold assign. destruct (cell c w); intros H; exact H. Qed.

Create HintDb go.
#[local] Hint Resolve keeps_ret keeps_emit keeps_actuate keeps_deref
  keeps_assign keeps_os_Exit never_exits_ret never_exits_emit
  never_exits_actuate never_exits_deref never_exits_assign : go.
#[local] Hint Unfold Sleep handleAsyncCommunication pushConnectionStatus
  GPIO_Up GPIO_Down : go.

(** One syntactic step through a computation: a bind, a test, a base case. *)
Ltac step_go :=
  match goal with
  | |- keeps_pointers (bind _ _) => apply keeps_bind; [|intros ?]
  | |- never_exits (bind _ _) => apply never_exits_bind; [|intros ?]
  | |- keeps_pointers (if ?b then _ else _) => destruct b
  | |- never_exits (if ?b then _ else _) => destruct b
  | |- keeps_pointers (match ?x with _ => _ end) => destruct x
  | |- never_exits (match ?x with _ => _ end) => destruct x
  | |- _ => progress cbv zeta
  | |- _ => solve [auto with go]
  | |- _ => solve [autounfold with go; auto with go]
  end.

Ltac go := repeat step_go.

Lemma keeps_set_status (c : Color) (b : bool) : keeps_pointers (set_status c b).
Proof. unfold set_status. go. Qed.

Lemma keeps_set_flashing (c : Color) (b : bool) :
  keeps_pointers (set_flashing c b).
Proof. unfold set_flashing. go. Qed.

Lemma keeps_set_color (c : Color) (r : rune) : keeps_pointers (set_color c r).
Proof. unfold set_color. go. Qed.

Lemma keeps_set_gpio (c : Color) (g : GPIO) : keeps_pointers (set_gpio c g).
Proof. unfold set_gpio. go. Qed.

Lemma never_exits_set_status (c : Color) (b : bool) :
  never_exits (set_status c b).
Proof. unfold set_status. go. Qed.

Lemma never_exits_set_flashing (c : Color) (b : bool) :
  never_exits (set_flashing c b).
Proof. unfold set_flashing. go. Qed.

#[local] Hint Resolve keeps_set_status keeps_set_flashing keeps_set_color
  keeps_set_gpio never_exits_set_status never_exits_set_flashing : go.

Lemma keeps_HandleLight (g : GPIO) : keeps_pointers (HandleLight g).
Proof. unfold HandleLight. go. Qed.

Lemma keeps_Up (hw : Hardware) (color : rune) : keeps_pointers (Up hw color).
Proof. unfold Up. go. Qed.

Lemma keeps_Down (hw : Hardware) (color : rune) :
  keeps_pointers (Down hw color).
Proof. unfold Down. go. Qed.

Lemma keeps_SetFlashOn (color : rune) : keeps_pointers (SetFlashOn color).
Proof. unfold SetFlashOn. go. Qed.

Lemma keeps_SetFlashOff (color : rune) : keeps_pointers (SetFlashOff color).
Proof. unfold SetFlashOff. go. Qed.

Lemma never_exits_Up (hw : Hardware) (color : rune) : never_exits (Up hw color).
Proof. unfold Up. go. Qed.

Lemma never_exits_Down (hw : Hardware) (color : rune) :
  never_exits (Down hw color).
Proof. unfold Down. go. Qed.

Lemma never_exits_SetFlashOn (color : rune) : never_exits (SetFlashOn color).
Proof. unfold SetFlashOn. go. Qed.

Lemma never_exits_SetFlashOff (color : rune) : never_exits (SetFlashOff color).
Proof. unfold SetFlashOff. go. Qed.

#[local] Hint Resolve keeps_HandleLight keeps_Up keeps_Down keeps_SetFlashOn
  keeps_SetFlashOff never_exits_Up never_exits_Down never_exits_SetFlashOn
  never_exits_SetFlashOff : go.

Lemma keeps_Flashing (hw : Hardware) (fuel : nat) (others : nat -> M unit)
    (color : rune) :
  (forall k, keeps_pointers (others k)) ->
  keeps_pointers (Flashing hw fuel others color).
Proof.
  intros Ho. unfold Flashing. destruct (color_of color) as [c|]; [|go].
  generalize 0%nat. induction fuel as [|fuel IH]; intros k; simpl; [go|].
  unfold Flashing_cycle. go.
Qed.

Lemma keeps_ConnectionCheck (received : list bool) :
  keeps_pointers (ConnectionCheck received).
Proof.
  unfold ConnectionCheck. generalize 0.
  induction received as [|connAck rest IH]; intros k; simpl; [go|].
  unfold ConnectionCheck_iteration. go.
Qed.

Lemma keeps_handleCleanGpio (hw : Hardware) (f : Flags)
    (clean openValve switchingValve : GPIO) :
  keeps_pointers (handleCleanGpio hw f clean openValve switchingValve).
Proof. unfold handleCleanGpio, raise_alarm. go. Qed.

Lemma never_exits_handleCleanGpio (hw : Hardware) (f : Flags)
    (clean openValve switchingValve : GPIO) :
  never_exits (handleCleanGpio hw f clean openValve switchingValve).
Proof. unfold handleCleanGpio, raise_alarm. go. Qed.

#[local] Hint Resolve keeps_handleCleanGpio never_exits_handleCleanGpio : go.

Lemma keeps_handleReverseGpio (hw : Hardware) (f : Flags)
    (reverse clean openValve switchingValve : GPIO) :
  keeps_pointers (handleReverseGpio hw f reverse clean openValve switchingValve).
Proof. unfold handleReverseGpio, raise_alarm. go. Qed.

Lemma never_exits_handleReverseGpio (hw : Hardware) (f : Flags)
    (reverse clean openValve switchingValve : GPIO) :
  never_exits (handleReverseGpio hw f reverse clean openValve switchingValve).
Proof. unfold handleReverseGpio, raise_alarm. go. Qed.

#[local] Hint Resolve keeps_handleReverseGpio never_exits_handleReverseGpio : go.

Lemma keeps_handleStartGpio_iteration (hw : Hardware) (f : Flags)
    (reverse clean openValve switchingValve : GPIO) (now now' : Z) (p : Pump) :
  keeps_pointers (handleStartGpio_iteration hw f reverse clean openValve
                    switchingValve now now' p).
Proof. unfold handleStartGpio_iteration, raise_alarm. go. Qed.

Lemma never_exits_handleStartGpio_iteration (hw : Hardware) (f : Flags)
    (reverse clean openValve switchingValve : GPIO) (now now' : Z) (p : Pump) :
  never_exits (handleStartGpio_iteration hw f reverse clean openValve
                 switchingValve now now' p).
Proof. unfold handleStartGpio_iteration, raise_alarm. go. Qed.

(** However long the main loop runs and whatever the lines and the clock
    answer, it does not call [os.Exit]. *)
Lemma never_exits_handleStartGpio_loop (hw : Hardware) (f : Flags)
    (reverse clean openValve switchingValve : GPIO) (clock : list (Z * Z))
    (p : Pump) :
  never_exits (handleStartGpio_loop hw f reverse clean openValve
                 switchingValve clock p).
Proof.
  revert p. induction clock as [|[now now'] rest IH]; intros p; simpl; [go|].
  apply never_exits_bind; [apply never_exits_handleStartGpio_iteration|].
  intros p'. apply IH.
Qed.

Lemma keeps_handleStartGpio_loop (hw : Hardware) (f : Flags)
    (reverse clean openValve switchingValve : GPIO) (clock : list (Z * Z))
    (p : Pump) :
  keeps_pointers (handleStartGpio_loop hw f reverse clean openValve
                    switchingValve clock p).
Proof.
  revert p. induction clock as [|[now now'] rest IH]; intros p; simpl; [go|].
  apply keeps_bind; [apply keeps_handleStartGpio_iteration|].
  intros p'. apply IH.
Qed.

(** The default branches: a rune that is none of 'G', 'Y', 'R', or a line
    that is none of 5, 6, 7, is only logged; no pointer is read. *)
Lemma unknown_colour_is_logged (hw : Hardware) (color : rune) (g : GPIO)
    (fuel : nat) (others : nat -> M unit) (w : World) :
  color_of color = None ->
  Line g <> 5 -> Line g <> 6 -> Line g <> 7 ->
  HandleLight g w = Done tt w
  /\ Up hw color w = Done None w
  /\ Down hw color w = Done None w
  /\ Flashing hw fuel others color w = Done (Some (Some (unknown_color color))) w
  /\ world_of (SetFlashOn color w) = world_of (emit (EvSetFlash color true) w)
  /\ world_of (SetFlashOff color w) = world_of (emit (EvSetFlash color false) w).
Proof.
  intros Hc H5 H6 H7.
  unfold HandleLight, Up, Down, Flashing, SetFlashOn, SetFlashOff.
  rewrite Hc. unfold color_of in Hc.
  apply Z.eqb_neq in H5, H6, H7. rewrite H5, H6, H7.
  destruct (color =? rune_G); [discriminate|].
  destruct (color =? rune_Y); [discriminate|].
  destruct (color =? rune_R); [discriminate|].
  repeat split.
Qed.

(** Nothing in package [driver] gives the three pointers a struct: from
    the start of the process they are nil after every operation. *)
Lemma lights_never_allocated {A} (m : M A) :
  keeps_pointers m -> unallocated (world_of (m boot)).
Proof.
  intros H. specialize (H boot).
  repeat split.
  - apply (H Green). reflexivity.
  - apply (H Yellow). reflexivity.
  - apply (H Red). reflexivity.
Qed.

(** The main loop started on the nil pointers ends, if it ends, in a nil
    dereference or at the end of the clock readings, never in [os.Exit], and
    the pointers are nil then too. *)
Lemma main_loop_from_boot (hw : Hardware) (f : Flags)
    (reverse clean openValve switchingValve : GPIO) (clock : list (Z * Z))
    (p : Pump) :
  let o := handleStartGpio_loop hw f reverse clean openValve switchingValve
             clock p boot in
  ~ exits o /\ unallocated (world_of o).
Proof.
  split.
  - apply never_exits_handleStartGpio_loop.
  - apply lights_never_allocated, keeps_handleStartGpio_loop.
Qed.

(** Nor does an operation started on the nil pointers leave anything but
    nil pointers. *)
Lemma stays_unallocated {A} (m : M A) (w : World) :
  keeps_pointers m -> unallocated w -> unallocated (world_of (m w)).
Proof.
  intros H (Hg & Hy & Hr). specialize (H w).
  repeat split; [apply (H Green)|apply (H Yellow)|apply (H Red)]; assumption.
Qed.

(** ** The indicators as the process finds them: three nil pointers *)

(** C10, as worded, fails for the inputs of the default branches: on the
    nil pointers, [Up('X')] and [HandleLight] on line 9 return without
    reading a pointer. *)
Lemma default_branches_read_no_pointer :
  Up reliable 88 boot = Done None boot
  /\ HandleLight (line_on "lamp" 9) boot = Done tt boot
  /\ ~ every_call_dereferences_nil.
Proof.
  split; [reflexivity|]. split; [reflexivity|].
  intros H.
  destruct (H reliable 88 (line_on "lamp" 9) boot) as (H1 & _).
  - repeat split.
  - exact H1.
Qed.

(** C10, amended.  While [green], [yellow] and [red] are nil, as they are
    when the process starts, every indicator operation on a known colour
    'G', 'Y' or 'R', and [HandleLight] on a line 5, 6 or 7, dereferences
    nil; and no indicator operation, on any rune or line, gives a pointer a
    struct: they are nil afterwards too. *)
Theorem indicator_calls_on_nil_pointers (hw : Hardware) (c : Color) (g : GPIO)
    (fuel : nat) (others : nat -> M unit) (w : World) :
  unallocated w ->
  Line g = 5 \/ Line g = 6 \/ Line g = 7 ->
  (panics (HandleLight g w)
   /\ panics (Up hw (rune_of c) w)
   /\ panics (Down hw (rune_of c) w)
   /\ panics (SetFlashOn (rune_of c) w)
   /\ panics (SetFlashOff (rune_of c) w)
   /\ panics (Flashing hw (S fuel) others (rune_of c) w))
  /\ (forall (color : rune) (line : GPIO) (n : nat),
        unallocated (world_of (HandleLight line w))
        /\ unallocated (world_of (Up hw color w))
        /\ unallocated (world_of (Down hw color w))
        /\ unallocated (world_of (SetFlashOn color w))
        /\ unallocated (world_of (SetFlashOff color w))
        /\ unallocated (world_of (Flashing hw n undisturbed color w))).
Proof.
  intros Hw Hl. split.
  - destruct Hw as (Hg & Hy & Hr).
    destruct w as [g0 y0 r0 n t]; simpl in Hg, Hy, Hr; subst.
    split.
    + unfold HandleLight.
      destruct Hl as [-> | [-> | ->]]; exact I.
    + destruct c; repeat split; exact I.
  - intros color line n.
    split; [|split; [|split; [|split; [|split]]]];
      (apply stays_unallocated; [|exact Hw]); auto with go.
    apply keeps_Flashing. intros k. apply keeps_ret.
Qed.

Lemma indicator_calls_on_nil_pointers_witness :
  unallocated boot
  /\ panics (HandleLight (line_on "green light" 5) boot)
  /\ panics (Up reliable rune_R boot)
  /\ panics (SetFlashOn rune_R boot)
  /\ panics (Flashing reliable 1 undisturbed rune_G boot).
Proof.
  assert (Hb : unallocated boot) by (repeat split).
  split; [exact Hb|].
  pose proof (indicator_calls_on_nil_pointers reliable Red
                (line_on "green light" 5) 0 undisturbed boot Hb
                (or_introl eq_refl)) as ((H1 & H2 & _ & H4 & _ & _) & _).
  pose proof (indicator_calls_on_nil_pointers reliable Green
                (line_on "green light" 5) 0 undisturbed boot Hb
                (or_introl eq_refl)) as ((_ & _ & _ & _ & _ & H6) & _).
  repeat split; assumption.
Defined.

(** ** The readiness loop *)

Lemma readiness_endpoint_failures (n : nat) (a : Z) (w : World) :
  exists w',
    readiness (repeat EndpointErr n) a w = Done (false, a) w'
    /\ trace w' = trace w ++ repeat (EvSleep (5 * Second)) n.
Proof.
  revert w. induction n as [|n IH]; intros w; simpl.
  - exists w. split; [reflexivity|]. now rewrite app_nil_r.
  - unfold bind, Sleep, emit.
    destruct (IH {| green := green w; yellow := yellow w; red := red w;
                    calls := calls w;
                    trace := trace w ++ [EvSleep (5 * Second)] |})
      as (w' & Hrun & Htr).
    exists w'. split; [exact Hrun|].
    rewrite Htr. simpl. now rewrite <- app_assoc.
Qed.

Lemma readiness_exit_cause (probes : list Probe) (a code : Z) (w w' : World) :
  readiness probes a w = Exit code w' ->
  code = 0 /\ MAX_RETRY < a + registry_failures probes.
Proof.
  revert a w. induction probes as [|p rest IH]; intros a w; simpl.
  - discriminate.
  - assert (Hcount : forall q, 0 <= registry_failures q)
      by (intros q; unfold registry_failures; lia).
    destruct p as [| |StatusCode|].
    + unfold bind at 1.
      destruct (a + 1 >? MAX_RETRY) eqn:E.
      * unfold os_Exit. intros H. injection H as <- _.
        split; [reflexivity|].
        apply Z.gtb_lt in E. pose proof (Hcount rest).
        unfold registry_failures in *. simpl. lia.
      * unfold ret, bind, Sleep, emit. intros H. apply IH in H.
        destruct H as [-> H]. split; [reflexivity|].
        unfold registry_failures in *. simpl. lia.
    + unfold bind, Sleep, emit. intros H. apply IH in H.
      unfold registry_failures in *. simpl. exact H.
    + destruct (StatusCode =? 200); [discriminate|].
      intros H. apply IH in H.
      unfold registry_failures in *. simpl. exact H.
    + discriminate.
Qed.

(** With the three lights allocated, nothing in the sequencer ends the
    process: every operation returns and leaves them allocated. *)
Lemma carries_on_ret {A} (a : A) : carries_on (ret a).
Proof. intros w Ha. now exists a, w. Qed.

Lemma carries_on_bind {A B} (m : M A) (k : A -> M B) :
  carries_on m -> (forall a, carries_on (k a)) -> carries_on (bind m k).
Proof.
  intros Hm Hk w Ha. destruct (Hm w Ha) as (a & w1 & Hrun & Ha1).
  unfold bind. rewrite Hrun. apply Hk, Ha1.
Qed.

Lemma carries_on_emit (e : Event) : carries_on (emit e).
Proof. intros w Ha. eexists _, _. split; [reflexivity|exact Ha]. Qed.

Lemma carries_on_actuate (hw : Hardware) (g : GPIO) (v : Z) :
  carries_on (actuate hw g v).
Proof. intros w Ha. eexists _, _. split; [reflexivity|exact Ha]. Qed.

Lemma carries_on_deref (c : Color) : carries_on (deref c).
Proof.
  intros w Ha. destruct (allocated_inv w Ha) as (g & y & r & Hg & Hy & Hr).
  unfold deref. destruct c; simpl; rewrite ?Hg, ?Hy, ?Hr;
    eexists _, _; (split; [reflexivity|exact Ha]).
Qed.

Lemma carries_on_assign (c : Color) (l : lights) : carries_on (assign c l).
Proof.
  intros w Ha. destruct (allocated_inv w Ha) as (g & y & r & Hg & Hy & Hr).
  destruct w as [g0 y0 r0 n t]; simpl in Hg, Hy, Hr; subst.
  destruct c; eexists _, _; (split; [reflexivity|]);
    unfold allocated; simpl; repeat split; discriminate.
Qed.

Create HintDb carry.
#[local] Hint Resolve carries_on_ret carries_on_emit carries_on_actuate
  carries_on_deref carries_on_assign : carry.

Ltac carry :=
  repeat first
    [ solve [auto with carry]
    | apply carries_on_bind; [|intros ?]
    | match goal with
      | |- carries_on (if ?b then _ else _) => destruct b
      | |- carries_on (match ?x with _ => _ end) => destruct x
      end ].

Lemma carries_on_set_status (c : Color) (b : bool) : carries_on (set_status c b).
Proof. unfold set_status. carry. Qed.

Lemma carries_on_set_flashing (c : Color) (b : bool) :
  carries_on (set_flashing c b).
Proof. unfold set_flashing. carry. Qed.

#[local] Hint Resolve carries_on_set_status carries_on_set_flashing : carry.

Lemma carries_on_Up (hw : Hardware) (color : rune) : carries_on (Up hw color).
Proof. unfold Up, GPIO_Up. carry. Qed.

Lemma carries_on_Down (hw : Hardware) (color : rune) :
  carries_on (Down hw color).
Proof. unfold Down, GPIO_Down. carry. Qed.

Lemma carries_on_SetFlashOn (color : rune) : carries_on (SetFlashOn color).
Proof. unfold SetFlashOn. carry. Qed.

Lemma carries_on_SetFlashOff (color : rune) : carries_on (SetFlashOff color).
Proof. unfold SetFlashOff. carry. Qed.

#[local] Hint Resolve carries_on_Up carries_on_Down carries_on_SetFlashOn
  carries_on_SetFlashOff : carry.

Lemma carries_on_raise_alarm (hw : Hardware) : carries_on (raise_alarm hw).
Proof. unfold raise_alarm. carry. Qed.

#[local] Hint Resolve carries_on_raise_alarm : carry.

Lemma carries_on_handleCleanGpio (hw : Hardware) (f : Flags)
    (clean openValve switchingValve : GPIO) :
  carries_on (handleCleanGpio hw f clean openValve switchingValve).
Proof.
  unfold handleCleanGpio, handleAsyncCommunication, Sleep, GPIO_Up, GPIO_Down.
  carry.
Qed.

#[local] Hint Resolve carries_on_handleCleanGpio : carry.

Lemma carries_on_handleReverseGpio (hw : Hardware) (f : Flags)
    (reverse clean openValve switchingValve : GPIO) :
  carries_on (handleReverseGpio hw f reverse clean openValve switchingValve).
Proof.
  unfold handleReverseGpio, handleAsyncCommunication, Sleep, GPIO_Up,
    GPIO_Down.
  carry.
Qed.

#[local] Hint Resolve carries_on_handleReverseGpio : carry.

Lemma carries_on_handleStartGpio_iteration (hw : Hardware) (f : Flags)
    (reverse clean openValve switchingValve : GPIO) (now now' : Z) (p : Pump) :
  carries_on (handleStartGpio_iteration hw f reverse clean openValve
                switchingValve now now' p).
Proof.
  unfold handleStartGpio_iteration, handleAsyncCommunication, Sleep, GPIO_Up,
    GPIO_Down.
  carry.
Qed.

Lemma carries_on_handleStartGpio_loop (hw : Hardware) (f : Flags)
    (reverse clean openValve switchingValve : GPIO) (clock : list (Z * Z))
    (p : Pump) :
  carries_on (handleStartGpio_loop hw f reverse clean openValve
                switchingValve clock p).
Proof.
  revert p. induction clock as [|[now now'] rest IH]; intros p; simpl.
  - apply carries_on_ret.
  - apply carries_on_bind; [apply carries_on_handleStartGpio_iteration|].
    intros p'. apply IH.
Qed.

(** C9, as worded, fails twice.  Six passes in which the companion endpoint
    does not answer leave the loop waiting, with no exit.  And the exit is
    not the only end of the process: started on the nil pointers, the first
    pass of the main loop ends in a nil dereference. *)
Lemma readiness_claim_fails :
  ~ readiness_budget_covers_both /\ ~ budget_exit_is_the_only_end.
Proof.
  split; intros H.
  - destruct (H (repeat EndpointErr 6) boot) as (w' & Hrun).
    + reflexivity.
    + vm_compute. reflexivity.
    + vm_compute in Hrun. discriminate.
  - destruct (H reliable both_enabled reverse_line clean_line openValve_line
                switchingValve_line [(1000, 1000)]
                {| pump_gpio := pump_line; startTs := 0 |})
      as (p' & w' & Hrun).
    vm_compute in Hrun. discriminate.
Qed.

(** C9, amended.  Only a failed registry lookup counts against the retry
    budget.  Each of the first [MAX_RETRY] such failures is followed by a
    sleep of five seconds and the sixth ends the process with code 0.  A
    failed request to the companion endpoint is followed by a sleep of five
    seconds and a new pass, any number of times.  When the readiness loop
    exits, the code is 0 and more than [MAX_RETRY] registry lookups have
    failed.  The main loop never calls [os.Exit]; with the three lights
    allocated it never ends the process: whatever the lines answer, it goes
    through every pass. *)
Theorem readiness_budget (w : World) :
  (exists w',
      readiness (repeat RegistryErr 5) 0 w = Done (false, 5) w'
      /\ trace w' = trace w ++ repeat (EvSleep (5 * Second)) 5)
  /\ (exists w',
         readiness (repeat RegistryErr 6) 0 w = Exit 0 w'
         /\ trace w' = trace w ++ repeat (EvSleep (5 * Second)) 5)
  /\ (forall n a, exists w',
         readiness (repeat EndpointErr n) a w = Done (false, a) w'
         /\ trace w' = trace w ++ repeat (EvSleep (5 * Second)) n)
  /\ (forall probes a code w',
         readiness probes a w = Exit code w' ->
         code = 0 /\ MAX_RETRY < a + registry_failures probes)
  /\ (forall hw f reverse clean openValve switchingValve clock p,
         ~ exits (handleStartGpio_loop hw f reverse clean openValve
                    switchingValve clock p w))
  /\ (allocated w ->
      forall hw f reverse clean openValve switchingValve clock p,
      exists p' w',
        handleStartGpio_loop hw f reverse clean openValve switchingValve
          clock p w = Done p' w'
        /\ allocated w').
Proof.
  split; [|split; [|split; [|split; [|split]]]].
  - eexists. split; [cbn; reflexivity|]. cbn.
    repeat rewrite <- app_assoc. reflexivity.
  - eexists. split; [cbn; reflexivity|]. cbn.
    repeat rewrite <- app_assoc. reflexivity.
  - intros n a. apply readiness_endpoint_failures.
  - intros probes a code w'. apply readiness_exit_cause.
  - intros. apply never_exits_handleStartGpio_loop.
  - intros Ha hw f reverse clean openValve switchingValve clock p.
    apply (carries_on_handleStartGpio_loop hw f reverse clean openValve
             switchingValve clock p w Ha).
Qed.

Lemma readiness_budget_witness :
  exists w',
    readiness [RegistryErr; EndpointErr; RegistryErr; RegistryErr;
               RegistryErr; RegistryErr; RegistryErr] 0 boot = Exit 0 w'
    /\ MAX_RETRY <
       registry_failures [RegistryErr; EndpointErr; RegistryErr; RegistryErr;
                          RegistryErr; RegistryErr; RegistryErr].
Proof.
  destruct (readiness_budget boot) as (_ & _ & _ & Hexit & _).
  assert (Hrun : exists w',
             readiness [RegistryErr; EndpointErr; RegistryErr; RegistryErr;
                        RegistryErr; RegistryErr; RegistryErr] 0 boot
             = Exit 0 w')
    by (eexists; vm_compute; reflexivity).
  destruct Hrun as (w' & Hrun). exists w'. split; [exact Hrun|].
  exact (proj2 (Hexit _ _ _ _ Hrun)).
Defined.

(** ** The watchdog reporter *)

Lemma ConnectionCheck_loop_app (l1 l2 : list bool) (k : Z) (w : World) :
  ConnectionCheck_loop (l1 ++ l2) k w =
  (k' <- ConnectionCheck_loop l1 k ;; ConnectionCheck_loop l2 k') w.
Proof.
  revert k w. induction l1 as [|b l1 IH]; intros k w; simpl; [reflexivity|].
  unfold bind at 1 2 3.
  destruct (ConnectionCheck_iteration b k w) as [k' w'| |]; try reflexivity.
  apply IH.
Qed.


Lemma bind_Done {A B} (m : M A) (k : A -> M B) (w w' : World) (a : A) :
  m w = Done a w' -> bind m k w = k a w'.
Proof. intros H. unfold bind. now rewrite H. Qed.






(** ** The flashing task *)

Lemma GPIO_set_never_fails (hw : Hardware) (n : nat) (g : GPIO) (v : Z) :
  never_fails hw -> GPIO_set hw n g v = None.
Proof.
  intros H. unfold GPIO_set, setupOutputLine, releaseLine.
  destruct (H n (Chip g) (Line g) v) as [-> ->]. reflexivity.
Qed.

Lemma color_of_rune_of (c : Color) : color_of (rune_of c) = Some c.
Proof. destruct c; reflexivity. Qed.

(** Runs one cycle on a state whose three cells are known; [Hset] says
    that the actuations return nil. *)
Ltac run_cycle Hset :=
  unfold Flashing_cycle, Up, Down, GPIO_Up, GPIO_Down, SetFlashOff, actuate,
    bind, deref, set_status, set_flashing, assign, Sleep, emit, ret; simpl;
  repeat (rewrite Hset; simpl).

Lemma cycle_undisturbed (hw : Hardware) (c : Color) (w : World) (l : lights) :
  never_fails hw -> allocated w -> cell c w = Some l -> flashing l = true ->
  exists w' l',
    Flashing_cycle hw (rune_of c) c (ret tt) w = Done Continue w'
    /\ trace w' = trace w ++ blink (gpio l)
    /\ allocated w' /\ cell c w' = Some l'
    /\ flashing l' = true /\ gpio l' = gpio l.
Proof.
  intros Hhw Ha Hc Hfl.
  destruct (allocated_inv w Ha) as (g & y & r & Hg & Hy & Hr).
  destruct w as [g0 y0 r0 n t]; simpl in Hg, Hy, Hr; subst.
  destruct c; simpl in Hc; injection Hc as ->.
  all: pose proof (fun k g v => GPIO_set_never_fails hw k g v Hhw) as Hset.
  all: run_cycle Hset; rewrite Hfl; run_cycle Hset.
  all: eexists; eexists; split; [reflexivity|]; simpl.
  all: rewrite <- !app_assoc; simpl.
  all: unfold allocated; simpl; repeat split; try discriminate; assumption.
Qed.

Lemma cycle_cleared (hw : Hardware) (c : Color) (w : World) (l : lights) :
  never_fails hw -> allocated w -> cell c w = Some l -> flashing l = true ->
  exists w',
    Flashing_cycle hw (rune_of c) c (SetFlashOff (rune_of c)) w = Done Continue w'
    /\ trace w' = trace w ++ last_blink c (gpio l)
    /\ flashingOf c w' = false /\ allocated w'.
Proof.
  intros Hhw Ha Hc Hfl.
  destruct (allocated_inv w Ha) as (g & y & r & Hg & Hy & Hr).
  destruct w as [g0 y0 r0 n t]; simpl in Hg, Hy, Hr; subst.
  destruct c; simpl in Hc; injection Hc as ->.
  all: pose proof (fun k g v => GPIO_set_never_fails hw k g v Hhw) as Hset.
  all: run_cycle Hset; rewrite Hfl; run_cycle Hset.
  all: eexists; split; [reflexivity|]; simpl.
  all: rewrite <- !app_assoc; simpl.
  all: unfold allocated; simpl; repeat split; discriminate.
Qed.

Lemma allocated_cell (c : Color) (w : World) : allocated w -> cell c w <> None.
Proof. intros (Hg & Hy & Hr). destruct c; assumption. Qed.

Lemma cycle_flag_clear (hw : Hardware) (color : rune) (c : Color)
    (meanwhile : M unit) (w : World) :
  flashingOf c w = false -> cell c w <> None ->
  Flashing_cycle hw color c meanwhile w = Done (Return None) w.
Proof.
  unfold flashingOf, Flashing_cycle, bind, deref.
  destruct (cell c w) as [l|]; [|congruence].
  intros -> _. reflexivity.
Qed.

Lemma stop_during_later (k n : nat) (c : Color) : stop_during (k + S n) c k = ret tt.
Proof.
  unfold stop_during. destruct (Nat.eqb_spec k (k + S n)); [lia|reflexivity].
Qed.

Lemma stop_during_now (k : nat) (c : Color) : stop_during (k + 0) c k = SetFlashOff (rune_of c).
Proof.
  unfold stop_during. rewrite Nat.add_0_r, Nat.eqb_refl. reflexivity.
Qed.

Lemma Flashing_loop_stops (hw : Hardware) (c : Color) :
  never_fails hw ->
  forall n k fuel w l,
    allocated w -> cell c w = Some l -> flashing l = true ->
    (n + 2 <= fuel)%nat ->
    exists w',
      Flashing_loop hw fuel (rune_of c) c (stop_during (k + n) c) k w
      = Done (Some None) w'
      /\ trace w' = trace w ++ blinks n (gpio l) ++ last_blink c (gpio l)
      /\ flashingOf c w' = false.
Proof.
  intros Hhw. induction n as [|n IH]; intros k fuel w l Ha Hc Hfl Hfuel.
  - destruct fuel as [|[|fuel]]; try lia.
    destruct (cycle_cleared hw c w l Hhw Ha Hc Hfl)
      as (w' & Hrun & Htr & Hoff & Ha').
    exists w'. split; [|split; assumption].
    cbn [Flashing_loop]. rewrite stop_during_now.
    rewrite (bind_Done _ _ _ _ _ Hrun).
    rewrite (bind_Done _ _ _ _ _
               (cycle_flag_clear hw _ c _ w' Hoff (allocated_cell c w' Ha'))).
    reflexivity.
  - destruct fuel as [|fuel]; try lia.
    destruct (cycle_undisturbed hw c w l Hhw Ha Hc Hfl)
      as (w1 & l1 & Hrun & Htr & Ha1 & Hc1 & Hfl1 & Hg1).
    destruct (IH (S k) fuel w1 l1 Ha1 Hc1 Hfl1 ltac:(lia))
      as (w' & Hrest & Htr' & Hoff).
    exists w'. split; [|split; [|exact Hoff]].
    + cbn [Flashing_loop]. rewrite stop_during_later.
      rewrite (bind_Done _ _ _ _ _ Hrun).
      replace (k + S n)%nat with (S k + n)%nat by lia. exact Hrest.
    + rewrite Htr', Htr, Hg1. simpl blinks. now rewrite <- !app_assoc.
Qed.

(** The flashing task until its flag is cleared.  With lines that work and
    the three lights allocated, a flashing task whose flag is set
    repeats: line high, a wait of three seconds, line low, and tests the flag
    again at once, with no wait after the low actuation.  When the flag is
    cleared during the wait of a cycle, the task finishes that cycle with the
    low actuation and returns nil at the next test, without another wait; a
    task that finds the flag clear at its first test returns nil and leaves
    the line alone. *)
Theorem Flashing_blinks_until_cleared (hw : Hardware) (c : Color) (n fuel : nat)
    (others : nat -> M unit) (w : World) (l : lights) :
  never_fails hw -> allocated w -> cell c w = Some l ->
  (flashing l = false ->
   Flashing hw (S fuel) others (rune_of c) w = Done (Some None) w)
  /\
  (flashing l = true -> (n + 2 <= fuel)%nat ->
   exists w',
     Flashing hw fuel (stop_during n c) (rune_of c) w = Done (Some None) w'
     /\ trace w' = trace w ++ blinks n (gpio l) ++ last_blink c (gpio l)
     /\ flashingOf c w' = false).
Proof.
  intros Hhw Ha Hc. unfold Flashing. rewrite color_of_rune_of. split.
  - intros Hfl. cbn [Flashing_loop].
    rewrite (bind_Done _ _ _ _ _
               (cycle_flag_clear hw _ c _ w
                  ltac:(unfold flashingOf; rewrite Hc; exact Hfl)
                  (allocated_cell c w Ha))).
    reflexivity.
  - intros Hfl Hfuel.
    apply (Flashing_loop_stops hw c Hhw n 0%nat fuel w l Ha Hc Hfl Hfuel).
Qed.

(** A cycle of the green task is high, wait, low; it has no second wait. *)
Lemma blink_has_one_wait :
  let w0 := board false false false true false false in
  ~ exists w',
      Flashing_cycle reliable rune_G Green (ret tt) w0 = Done Continue w'
      /\ trace w' = trace w0 ++ spec_blink (line_on "light" 5).
Proof.
  intros w0 (w' & Hrun & Htr).
  vm_compute in Hrun. injection Hrun as <-.
  vm_compute in Htr. discriminate.
Qed.

Lemma Flashing_blinks_until_cleared_witness :
  exists w',
    Flashing reliable 4 (stop_during 2 Green) rune_G
      (board false false false true false false) = Done (Some None) w'
    /\ trace w' =
       blinks 2 (line_on "light" 5) ++ last_blink Green (line_on "light" 5).
Proof.
  destruct (Flashing_blinks_until_cleared reliable Green 2 4 undisturbed
              (board false false false true false false)
              (light rune_G 5 false true))
    as [_ H].
  - intros n chip line v. split; reflexivity.
  - unfold allocated; simpl; repeat split; discriminate.
  - reflexivity.
  - destruct (H eq_refl ltac:(simpl; lia)) as (w' & Hrun & Htr & _).
    exists w'. split; [exact Hrun|exact Htr].
Defined.

(** C7.  With the green flag set, the three lights allocated and lines that
    work, two passes of the loop of [Flashing('G')] are: high, a wait of
    three seconds, low, high, a wait of three seconds, low.  The flag is
    tested again right after the low actuation: the second wait of the cycle
    the specification words is not there, and the line is driven high again
    at once. *)
Theorem Flashing_has_no_wait_after_low :
  let w0 := board false false false true false false in
  let g := line_on "light" 5 in
  exists w',
    Flashing reliable 2 undisturbed rune_G w0 = Done None w'
    /\ trace w' =
       [EvLine (Chip g) (Line g) 1 None; EvSleep (3 * Second);
        EvLine (Chip g) (Line g) 0 None;
        EvLine (Chip g) (Line g) 1 None; EvSleep (3 * Second);
        EvLine (Chip g) (Line g) 0 None]
    /\ trace w' <> spec_blink g ++ spec_blink g.
Proof.
  intros w0 g.
  exists (world_of (Flashing reliable 2 undisturbed rune_G w0)).
  split; [vm_compute; reflexivity|].
  split; [vm_compute; reflexivity|]. vm_compute. discriminate.
Qed.

(** * Further properties of the driver *)

(** ** Relations kept by the operations *)

Lemma respects_ret (R : World -> World -> Prop) {A} (a : A) :
  (forall w, R w w) -> respects R (ret a).
Proof. intros Hrefl w. apply Hrefl. Qed.

Lemma respects_bind (R : World -> World -> Prop) {A B} (m : M A)
    (k : A -> M B) :
  (forall w1 w2 w3, R w1 w2 -> R w2 w3 -> R w1 w3) ->
  respects R m -> (forall a, respects R (k a)) -> respects R (bind m k).
Proof.
  intros Htrans Hm Hk w. unfold bind. specialize (Hm w).
  destruct (m w) as [a w1|w1|code w1]; simpl in *; auto.
  eapply Htrans; [exact Hm|apply Hk].
Qed.

Lemma same_flashing_refl (w : World) : same_flashing w w.
Proof. intros c. reflexivity. Qed.

Lemma same_flashing_trans (w1 w2 w3 : World) :
  same_flashing w1 w2 -> same_flashing w2 w3 -> same_flashing w1 w3.
Proof. intros H12 H23 c. rewrite (H23 c). apply H12. Qed.

Lemma same_status_refl (w : World) : same_status w w.
Proof. repeat split. Qed.

Lemma same_status_trans (w1 w2 w3 : World) :
  same_status w1 w2 -> same_status w2 w3 -> same_status w1 w3.
Proof.
  intros (Hc & Hl & Hs) (Hc' & Hl' & Hs').
  split; [congruence|split; [congruence|]].
  intros c. rewrite (Hs' c). apply Hs.
Qed.

Lemma flashing_emit (e : Event) : respects same_flashing (emit e).
Proof. intros w c. destruct c; reflexivity. Qed.

Lemma flashing_actuate (hw : Hardware) (g : GPIO) (v : Z) :
  respects same_flashing (actuate hw g v).
Proof. intros w c. destruct c; reflexivity. Qed.

Lemma flashing_deref (c : Color) : respects same_flashing (deref c).
Proof.
  intros w. unfold deref. destruct (cell c w); apply same_flashing_refl.
Qed.

Lemma flashing_set_status (c : Color) (b : bool) :
  respects same_flashing (set_status c b).
Proof.
  intros w o. unfold set_status, bind, deref, assign.
  destruct (cell c w) as [l|] eqn:E; simpl; [|reflexivity].
  rewrite E. destruct c, o; simpl in *; try reflexivity; rewrite E; reflexivity.
Qed.

Lemma status_emit (e : Event) :
  (forall chip line v err, e <> EvLine chip line v err) ->
  respects same_status (emit e).
Proof.
  intros He w. split; [reflexivity|split]; simpl.
  - unfold lines_of. rewrite flat_map_app. simpl.
    destruct e; try (now rewrite app_nil_r). now destruct (He chip line state err).
  - intros c. destruct c; reflexivity.
Qed.

Lemma status_deref (c : Color) : respects same_status (deref c).
Proof.
  intros w. unfold deref. destruct (cell c w); apply same_status_refl.
Qed.

Lemma status_set_flashing (c : Color) (b : bool) :
  respects same_status (set_flashing c b).
Proof.
  intros w. unfold set_flashing, bind, deref, assign.
  destruct (cell c w) as [l|] eqn:E; simpl; [|apply same_status_refl].
  rewrite E. split; [destruct c; reflexivity|split; [destruct c; reflexivity|]].
  intros o. destruct c, o; simpl in *; try reflexivity; rewrite E; reflexivity.
Qed.

Create HintDb frames.
#[local] Hint Resolve same_flashing_refl same_flashing_trans same_status_refl
  same_status_trans flashing_emit flashing_actuate flashing_deref
  flashing_set_status status_deref status_set_flashing : frames.
#[local] Hint Unfold Sleep handleAsyncCommunication pushConnectionStatus
  GPIO_Up GPIO_Down raise_alarm : frames.

Ltac frame_step :=
  match goal with
  | |- respects same_flashing (bind _ _) =>
      apply respects_bind; [exact same_flashing_trans| |intros ?]
  | |- respects same_status (bind _ _) =>
      apply respects_bind; [exact same_status_trans| |intros ?]
  | |- respects _ (ret _) => apply respects_ret; auto with frames
  | |- respects same_status (emit _) => apply status_emit; discriminate
  | |- respects _ (if ?b then _ else _) => destruct b
  | |- respects _ (match ?x with _ => _ end) => destruct x
  | |- _ => progress cbv zeta
  | |- _ => solve [auto with frames]
  | |- _ => solve [autounfold with frames; auto with frames]
  | |- _ => progress autounfold with frames
  end.

Ltac frame := repeat frame_step.

Lemma flashing_Up (hw : Hardware) (color : rune) :
  respects same_flashing (Up hw color).
Proof. unfold Up. frame. Qed.

Lemma flashing_Down (hw : Hardware) (color : rune) :
  respects same_flashing (Down hw color).
Proof. unfold Down. frame. Qed.

Lemma status_SetFlashOn (color : rune) : respects same_status (SetFlashOn color).
Proof. unfold SetFlashOn. frame. Qed.

Lemma status_SetFlashOff (color : rune) :
  respects same_status (SetFlashOff color).
Proof. unfold SetFlashOff. frame. Qed.

#[local] Hint Resolve flashing_Up flashing_Down status_SetFlashOn
  status_SetFlashOff : frames.

Lemma flashing_handleCleanGpio (hw : Hardware) (f : Flags)
    (clean openValve switchingValve : GPIO) :
  respects same_flashing (handleCleanGpio hw f clean openValve switchingValve).
Proof. unfold handleCleanGpio. frame. Qed.

#[local] Hint Resolve flashing_handleCleanGpio : frames.

(** The reporter of the watchdog only writes flashing flags: whatever it
    receives and whatever the state, it drives no line and leaves every
    status flag, colour and line assignment as it found them. *)
Theorem reporter_only_writes_flashing_flags (received : list bool) (w : World) :
  same_status w (world_of (ConnectionCheck received w)).
Proof.
  revert w. change (respects same_status (ConnectionCheck received)).
  unfold ConnectionCheck. generalize 0.
  induction received as [|connAck rest IH]; intros k; simpl; [frame|].
  unfold ConnectionCheck_iteration. frame.
Qed.

(** ** The indicator operations, one at a time *)

(** [Up] and [Down] of a known colour make one call to the line of that
    colour and return its result.  The status flags of the two other colours
    are cleared by [Up] without their lines being driven, and no flashing
    flag, colour or line assignment changes. *)
Theorem Up_Down_drive_one_line (hw : Hardware) (c : Color) (w : World)
    (l : lights) :
  allocated w -> cell c w = Some l ->
  (exists w',
      Up hw (rune_of c) w = Done (GPIO_set hw (calls w) (gpio l) 1) w'
      /\ trace w' = trace w ++ [EvLine (Chip (gpio l)) (Line (gpio l)) 1
                                  (GPIO_set hw (calls w) (gpio l) 1)]
      /\ calls w' = S (calls w) /\ same_flashing w w')
  /\
  (exists w',
      Down hw (rune_of c) w = Done (GPIO_set hw (calls w) (gpio l) 0) w'
      /\ trace w' = trace w ++ [EvLine (Chip (gpio l)) (Line (gpio l)) 0
                                  (GPIO_set hw (calls w) (gpio l) 0)]
      /\ calls w' = S (calls w) /\ same_flashing w w').
Proof.
  intros Ha Hc.
  destruct (allocated_inv w Ha) as (g & y & r & Hg & Hy & Hr).
  destruct w as [g0 y0 r0 n t]; simpl in Hg, Hy, Hr; subst.
  destruct c; simpl in Hc; injection Hc as ->.
  all: split; eexists; (split; [reflexivity|]); simpl.
  all: split; [reflexivity|split; [reflexivity|]].
  all: intros o; destruct o; reflexivity.
Qed.

Lemma Up_Down_drive_one_line_witness :
  exists w',
    Up (failing 6 1) rune_Y (board true false false false false true)
    = Done (Some "request failed"%string) w'
    /\ lines_of (trace w') = [("gpiochip0"%string, 6, 1)]
    /\ solid Green w' = false /\ solid Yellow w' = true
    /\ flashingOf Red w' = true.
Proof.
  destruct (Up_Down_drive_one_line (failing 6 1) Yellow
              (board true false false false false true)
              (light rune_Y 6 false false))
    as [(w' & Hrun & Htr & _ & Hfl) _].
  - unfold allocated; simpl; repeat split; discriminate.
  - reflexivity.
  - exists w'. split; [exact Hrun|].
    split; [rewrite Htr; reflexivity|].
    vm_compute in Hrun. injection Hrun as <-.
    repeat split.
Defined.

(** [SetFlashOff] of a known colour clears the flashing flag of that colour
    alone: the two other flashing flags, every status flag and the lines are
    as before, and no line is driven. *)
Theorem SetFlashOff_clears_one_flag (c : Color) (w : World) :
  allocated w ->
  exists w',
    SetFlashOff (rune_of c) w = Done tt w'
    /\ flashingOf c w' = false
    /\ (forall o, o <> c -> flashingOf o w' = flashingOf o w)
    /\ same_status w w'
    /\ trace w' = trace w ++ [EvSetFlash (rune_of c) false].
Proof.
  intros Ha.
  destruct (allocated_inv w Ha) as (g & y & r & Hg & Hy & Hr).
  destruct w as [g0 y0 r0 n t]; simpl in Hg, Hy, Hr; subst.
  destruct c; eexists; (split; [reflexivity|]); simpl.
  all: split; [reflexivity|].
  all: split; [intros o Ho; destruct o; try reflexivity; congruence|].
  all: split; [|reflexivity].
  all: split; [reflexivity|split].
  all: try (intros o; destruct o; reflexivity).
  all: cbn [trace]; unfold lines_of; rewrite flat_map_app; simpl;
    apply app_nil_r.
Qed.

Lemma SetFlashOff_clears_one_flag_witness :
  exists w',
    SetFlashOff rune_R (board false true false true false true) = Done tt w'
    /\ flashingOf Red w' = false /\ flashingOf Green w' = true
    /\ solid Yellow w' = true.
Proof.
  destruct (SetFlashOff_clears_one_flag Red
              (board false true false true false true))
    as (w' & Hrun & Hoff & Hothers & _ & _).
  - unfold allocated; simpl; repeat split; discriminate.
  - exists w'. split; [exact Hrun|]. split; [exact Hoff|].
    split; [rewrite Hothers; [reflexivity|discriminate]|].
    vm_compute in Hrun. injection Hrun as <-. reflexivity.
Defined.

(** [HandleLight] binds line 5 to green, 6 to yellow and 7 to red: it stores
    the line and the rune in the light of that colour, leaves the flags of
    all three lights alone, and a later [Up] of the colour drives the line
    that was stored. *)
Theorem HandleLight_then_Up (hw : Hardware) (c : Color) (g : GPIO) (w : World) :
  allocated w -> Line g = light_line c ->
  exists w1 w2,
    HandleLight g w = Done tt w1
    /\ option_map gpio (cell c w1) = Some g
    /\ option_map color (cell c w1) = Some (rune_of c)
    /\ (forall o, solid o w1 = solid o w /\ flashingOf o w1 = flashingOf o w)
    /\ (forall o, o <> c -> cell o w1 = cell o w)
    /\ Up hw (rune_of c) w1 = Done (GPIO_set hw (calls w) g 1) w2
    /\ trace w2 = trace w ++ [EvLine (Chip g) (Line g) 1
                                (GPIO_set hw (calls w) g 1)].
Proof.
  intros Ha Hl.
  destruct (allocated_inv w Ha) as (gr & y & r & Hg & Hy & Hr).
  destruct w as [g0 y0 r0 n t]; simpl in Hg, Hy, Hr; subst.
  unfold HandleLight. rewrite Hl.
  destruct c; simpl; eexists; eexists; (split; [reflexivity|]); simpl.
  all: split; [reflexivity|split; [reflexivity|]].
  all: split; [intros o; destruct o; split; reflexivity|].
  all: split; [intros o Ho; destruct o; try reflexivity; congruence|].
  all: split; [reflexivity|]; simpl; rewrite ?Hl; reflexivity.
Qed.

Lemma HandleLight_then_Up_witness :
  exists w1 w2,
    HandleLight (line_on "red lamp" 7) dark = Done tt w1
    /\ Up reliable rune_R w1 = Done None w2
    /\ trace w2 = [EvLine "gpiochip0" 7 1 None].
Proof.
  destruct (HandleLight_then_Up reliable Red (line_on "red lamp" 7) dark)
    as (w1 & w2 & H1 & _ & _ & _ & _ & H2 & Htr).
  - unfold allocated; simpl; repeat split; discriminate.
  - reflexivity.
  - exists w1, w2. split; [exact H1|]. split; [exact H2|exact Htr].
Defined.

(** ** The flashing task, further *)

(** A flashing task whose first actuation fails returns that error at once,
    without sleeping.  The flashing flag of its colour stays set and the
    status flag of the colour says solid, although the task is gone. *)
Theorem Flashing_ends_on_line_error (hw : Hardware) (c : Color) (fuel : nat)
    (others : nat -> M unit) (w : World) (l : lights) (e : error) :
  allocated w -> cell c w = Some l -> flashing l = true ->
  GPIO_set hw (calls w) (gpio l) 1 = Some e ->
  exists w',
    Flashing hw (S fuel) others (rune_of c) w = Done (Some (Some e)) w'
    /\ trace w' = trace w ++ [EvLine (Chip (gpio l)) (Line (gpio l)) 1 (Some e)]
    /\ flashingOf c w' = true /\ solid c w' = true.
Proof.
  intros Ha Hc Hfl Hset.
  destruct (allocated_inv w Ha) as (g & y & r & Hg & Hy & Hr).
  destruct w as [g0 y0 r0 n t]; simpl in Hg, Hy, Hr, Hset; subst.
  unfold Flashing. rewrite color_of_rune_of. cbn [Flashing_loop].
  destruct c; simpl in Hc; injection Hc as ->.
  all: run_cycle Hset; rewrite Hfl; run_cycle Hset.
  all: eexists; split; [reflexivity|]; simpl.
  all: unfold flashingOf, solid; simpl; repeat split; assumption.
Qed.

Lemma Flashing_ends_on_line_error_witness :
  exists w',
    Flashing (failing 7 1) 3 undisturbed rune_R
      (board false false false false false true)
    = Done (Some (Some "request failed"%string)) w'
    /\ flashingOf Red w' = true /\ sleeps_of (trace w') = [].
Proof.
  destruct (Flashing_ends_on_line_error (failing 7 1) Red 2 undisturbed
              (board false false false false false true)
              (light rune_R 7 false true) "request failed"%string)
    as (w' & Hrun & Htr & Hfl & _).
  - unfold allocated; simpl; repeat split; discriminate.
  - reflexivity.
  - reflexivity.
  - reflexivity.
  - exists w'. split; [exact Hrun|]. split; [exact Hfl|].
    rewrite Htr. reflexivity.
Defined.

Lemma Flashing_loop_keeps_blinking (hw : Hardware) (c : Color) :
  never_fails hw ->
  forall fuel k w l,
    allocated w -> cell c w = Some l -> flashing l = true ->
    exists w',
      Flashing_loop hw fuel (rune_of c) c undisturbed k w = Done None w'
      /\ trace w' = trace w ++ blinks fuel (gpio l)
      /\ flashingOf c w' = true.
Proof.
  intros Hhw. induction fuel as [|fuel IH]; intros k w l Ha Hc Hfl.
  - exists w. split; [reflexivity|]. split; [simpl; now rewrite app_nil_r|].
    unfold flashingOf. now rewrite Hc.
  - destruct (cycle_undisturbed hw c w l Hhw Ha Hc Hfl)
      as (w1 & l1 & Hrun & Htr & Ha1 & Hc1 & Hfl1 & Hg1).
    destruct (IH (S k) w1 l1 Ha1 Hc1 Hfl1) as (w' & Hrest & Htr' & Hfl').
    exists w'. split; [|split; [|exact Hfl']].
    + cbn [Flashing_loop]. unfold undisturbed at 1.
      rewrite (bind_Done _ _ _ _ _ Hrun). exact Hrest.
    + rewrite Htr', Htr, Hg1. simpl blinks. now rewrite <- !app_assoc.
Qed.

(** While the flag of its colour stays set and the lines work, a flashing
    task does not return: after any number of cycles it is still in the
    loop, having blinked once per cycle. *)
Theorem Flashing_keeps_blinking (hw : Hardware) (c : Color) (fuel : nat)
    (w : World) (l : lights) :
  never_fails hw -> allocated w -> cell c w = Some l -> flashing l = true ->
  exists w',
    Flashing hw fuel undisturbed (rune_of c) w = Done None w'
    /\ trace w' = trace w ++ blinks fuel (gpio l)
    /\ flashingOf c w' = true.
Proof.
  intros Hhw Ha Hc Hfl. unfold Flashing. rewrite color_of_rune_of.
  apply (Flashing_loop_keeps_blinking hw c Hhw fuel 0%nat w l Ha Hc Hfl).
Qed.

Lemma Flashing_keeps_blinking_witness :
  exists w',
    Flashing reliable 3 undisturbed rune_G
      (board false false false true false false) = Done None w'
    /\ sleeps_of (trace w') = [blinkInterval; blinkInterval; blinkInterval].
Proof.
  destruct (Flashing_keeps_blinking reliable Green 3
              (board false false false true false false)
              (light rune_G 5 false true))
    as (w' & Hrun & Htr & _).
  - intros n chip line v. split; reflexivity.
  - unfold allocated; simpl; repeat split; discriminate.
  - reflexivity.
  - reflexivity.
  - exists w'. split; [exact Hrun|]. rewrite Htr. reflexivity.
Defined.

(** ** The prober and the reporter together *)

Lemma connected_loop_pushes (probe_errs : list bool) (w : World) :
  exists w',
    connected_loop probe_errs w = Done tt w'
    /\ pushed (trace w') =
       pushed (trace w)
       ++ flat_map (fun e : bool => if e then [false; true] else [true])
            probe_errs.
Proof.
  revert w. induction probe_errs as [|e rest IH]; intros w; simpl.
  - exists w. split; [reflexivity|]. now rewrite app_nil_r.
  - destruct (IH (world_of (connected_iteration e w))) as (w' & Hrun & Htr).
    exists w'. split.
    + unfold bind at 1. destruct e; exact Hrun.
    + rewrite Htr. unfold pushed.
      destruct e; simpl; rewrite !flat_map_app; simpl;
        rewrite <- !app_assoc; reflexivity.
Qed.

Lemma reporter_pass (e : bool) (w : World) :
  allocated w ->
  exists w',
    ConnectionCheck_loop (if e then [false; true] else [true]) 0 w = Done 0 w'
    /\ flashingOf Red w' = false /\ allocated w'
    /\ flash_tasks (trace w') =
       flash_tasks (trace w) ++ (if e then [rune_R] else []).
Proof.
  intros Ha.
  destruct (allocated_inv w Ha) as (g & y & r & Hg & Hy & Hr).
  destruct w as [g0 y0 r0 n t]; simpl in Hg, Hy, Hr; subst.
  destruct e; eexists; (split; [reflexivity|]); simpl.
  all: split; [reflexivity|].
  all: split; [unfold allocated; simpl; repeat split; discriminate|].
  all: unfold flash_tasks; rewrite !flat_map_app; simpl.
  all: rewrite <- ?app_assoc; simpl; rewrite ?app_nil_r; reflexivity.
Qed.

(** Whatever the probes answer, the values the prober sends leave the
    reporter with the red flashing flag cleared after every pass of the
    prober: a failed probe sets the flag and the [true] sent in the same
    pass clears it.  Each failed probe starts one more flashing task for
    red. *)
Theorem watchdog_never_keeps_red_flashing (probe_errs : list bool) (w : World) :
  allocated w -> probe_errs <> [] ->
  exists w',
    ConnectionCheck (pushed (trace (world_of (connected_loop probe_errs boot)))) w
    = Done 0 w'
    /\ flashingOf Red w' = false
    /\ flash_tasks (trace w') =
       flash_tasks (trace w)
       ++ repeat rune_R (count_occ Bool.bool_dec probe_errs true).
Proof.
  intros Ha Hne.
  destruct (connected_loop_pushes probe_errs boot) as (wp & Hp & Hsent).
  rewrite Hp. simpl world_of. rewrite Hsent. simpl app.
  clear Hp Hsent wp. unfold ConnectionCheck.
  assert (Hgen : forall errs w0, allocated w0 ->
            exists w',
              ConnectionCheck_loop
                (flat_map (fun e : bool => if e then [false; true] else [true])
                   errs) 0 w0 = Done 0 w'
              /\ (errs <> [] -> flashingOf Red w' = false) /\ allocated w'
              /\ flash_tasks (trace w') =
                 flash_tasks (trace w0)
                 ++ repeat rune_R (count_occ Bool.bool_dec errs true)).
  { induction errs as [|e rest IH]; intros w0 Ha0.
    - exists w0. split; [reflexivity|]. split; [congruence|].
      split; [exact Ha0|]. simpl. now rewrite app_nil_r.
    - destruct (reporter_pass e w0 Ha0) as (w1 & H1 & Hoff1 & Ha1 & Ht1).
      destruct (IH w1 Ha1) as (w2 & H2 & Hoff2 & Ha2 & Ht2).
      exists w2. split; [|split; [|split; [exact Ha2|]]].
      + simpl flat_map. rewrite ConnectionCheck_loop_app.
        rewrite (bind_Done _ _ _ _ _ H1). exact H2.
      + intros _. destruct rest as [|e' rest'].
        * simpl in H2. injection H2 as <-. exact Hoff1.
        * apply Hoff2. discriminate.
      + rewrite Ht2, Ht1. rewrite <- app_assoc. f_equal.
        destruct e; simpl; [|reflexivity].
        destruct (Bool.bool_dec true true); [reflexivity|congruence]. }
  destruct (Hgen probe_errs w Ha) as (w' & Hrun & Hoff & _ & Ht).
  exists w'. split; [exact Hrun|]. split; [exact (Hoff Hne)|exact Ht].
Qed.

Lemma watchdog_never_keeps_red_flashing_witness :
  exists w',
    ConnectionCheck [false; true; true; false; true] dark = Done 0 w'
    /\ flashingOf Red w' = false
    /\ flash_tasks (trace w') = [rune_R; rune_R].
Proof.
  destruct (watchdog_never_keeps_red_flashing [true; false; true] dark)
    as (w' & Hrun & Hoff & Ht).
  - unfold allocated; simpl; repeat split; discriminate.
  - discriminate.
  - exists w'. split; [exact Hrun|]. split; [exact Hoff|exact Ht].
Defined.

(** ** The passes of the main loop *)

(** Unfolds the sequencer down to the state; [Hset] gives the answers of the
    lines that are known. *)
Ltac run_pass :=
  unfold handleStartGpio_iteration, handleReverseGpio, handleCleanGpio,
    raise_alarm, handleAsyncCommunication, Up, Down, SetFlashOn, SetFlashOff,
    GPIO_Up, GPIO_Down, actuate, bind, deref, set_status, set_flashing, assign,
    Sleep, emit, ret; simpl.

Lemma hold_branch_witness :
  exists w',
    handleStartGpio_iteration reliable both_enabled reverse_line clean_line
      openValve_line switchingValve_line 1299 1299
      {| pump_gpio := with_State pump_line true; startTs := 1000 |} dark
    = Done {| pump_gpio := with_State pump_line true; startTs := 1000 |} w'
    /\ lines_of (trace w') = [] /\ sleeps_of (trace w') = [300 * Second].
Proof.
  destruct (hold_branch reliable both_enabled reverse_line clean_line
              openValve_line switchingValve_line 1299 1299
              {| pump_gpio := with_State pump_line true; startTs := 1000 |}
              dark)
    as (w' & Hrun & Htr & _).
  - reflexivity.
  - vm_compute. reflexivity.
  - exists w'. split; [exact Hrun|]. rewrite Htr. split; reflexivity.
Defined.

(** A pass that finds the pump off and whose actuation of the pump line
    succeeds: the pump is recorded as on with the clock reading as start
    time, green is the one solid colour, one reading is sent, and the pass
    does not sleep.  The result of driving the green line is not looked at. *)
Theorem pump_on_pass (hw : Hardware) (f : Flags)
    (reverse clean openValve switchingValve : GPIO) (now now' : Z) (p : Pump)
    (w : World) (g : lights) :
  allocated w -> green w = Some g ->
  State (pump_gpio p) = false ->
  GPIO_set hw (calls w) (pump_gpio p) 1 = None ->
  exists w',
    handleStartGpio_iteration hw f reverse clean openValve switchingValve
      now now' p w
    = Done {| pump_gpio := with_State (pump_gpio p) true; startTs := now |} w'
    /\ trace w' =
       trace w ++
       [EvLine (Chip (pump_gpio p)) (Line (pump_gpio p)) 1 None;
        EvLine (Chip (gpio g)) (Line (gpio g)) 1
          (GPIO_set hw (S (calls w)) (gpio g) 1);
        EvTelemetry (with_State (pump_gpio p) true)]
    /\ solid Green w' = true /\ solid Yellow w' = false
    /\ solid Red w' = false.
Proof.
  intros Ha Hgreen Hs Hset.
  destruct (allocated_inv w Ha) as (g1 & y & r & Hg & Hy & Hr).
  destruct w as [g0 y0 r0 n t]; simpl in Hg, Hy, Hr, Hgreen, Hset.
  rewrite Hg in Hgreen. injection Hgreen as ->. subst.
  run_pass. rewrite Hs. run_pass. rewrite Hset. run_pass.
  eexists. split; [reflexivity|]. simpl.
  rewrite <- !app_assoc. repeat split.
Qed.

Lemma pump_on_pass_witness :
  exists w',
    handleStartGpio_iteration reliable both_enabled reverse_line clean_line
      openValve_line switchingValve_line 1000 1000
      {| pump_gpio := pump_line; startTs := 0 |}
      (board false false true false false false)
    = Done {| pump_gpio := with_State pump_line true; startTs := 1000 |} w'
    /\ solid Green w' = true /\ solid Red w' = false
    /\ sleeps_of (trace w') = [].
Proof.
  destruct (pump_on_pass reliable both_enabled reverse_line clean_line
              openValve_line switchingValve_line 1000 1000
              {| pump_gpio := pump_line; startTs := 0 |}
              (board false false true false false false)
              (light rune_G 5 false false))
    as (w' & Hrun & Htr & Hg & _ & Hr).
  - unfold allocated; simpl; repeat split; discriminate.
  - reflexivity.
  - reflexivity.
  - reflexivity.
  - exists w'. split; [exact Hrun|]. split; [exact Hg|]. split; [exact Hr|].
    rewrite Htr. reflexivity.
Defined.

Lemma pump_on_failure_pass (hw : Hardware) (f : Flags)
    (reverse clean openValve switchingValve : GPIO) (now now' : Z) (p : Pump)
    (w : World) (e : error) :
  allocated w ->
  State (pump_gpio p) = false ->
  GPIO_set hw (calls w) (pump_gpio p) 1 = Some e ->
  exists w',
    handleStartGpio_iteration hw f reverse clean openValve switchingValve
      now now' p w = Done p w'
    /\ sleeps_of (trace w') = sleeps_of (trace w) ++ [Second]
    /\ telemetry_of (trace w') = telemetry_of (trace w)
    /\ solid Red w' = true /\ allocated w'.
Proof.
  intros Ha Hs Hset.
  destruct (allocated_inv w Ha) as (g & y & r & Hg & Hy & Hr).
  destruct w as [g0 y0 r0 n t]; simpl in Hg, Hy, Hr, Hset; subst.
  run_pass. rewrite Hs. run_pass. rewrite Hset. run_pass.
  eexists. split; [reflexivity|]. simpl.
  unfold sleeps_of, telemetry_of. rewrite !flat_map_app. simpl.
  rewrite !app_nil_r.
  repeat split; unfold allocated; simpl; try discriminate.
Qed.

(** As long as the pump line refuses to go high the main loop tries again,
    without bound: every pass raises the red alarm and sleeps one second,
    the pump stays recorded as off and no reading is sent. *)
Theorem pump_on_is_retried_forever (hw : Hardware) (f : Flags)
    (reverse clean openValve switchingValve : GPIO) (clock : list (Z * Z))
    (p : Pump) (w : World) :
  allocated w ->
  State (pump_gpio p) = false ->
  (forall k, GPIO_set hw k (pump_gpio p) 1 <> None) ->
  exists w',
    handleStartGpio_loop hw f reverse clean openValve switchingValve clock p w
    = Done p w'
    /\ sleeps_of (trace w') =
       sleeps_of (trace w) ++ repeat Second (List.length clock)
    /\ telemetry_of (trace w') = telemetry_of (trace w)
    /\ (clock <> [] -> solid Red w' = true).
Proof.
  intros Ha Hs Hfail. revert w Ha.
  induction clock as [|[now now'] rest IH]; intros w Ha.
  - exists w. split; [reflexivity|]. simpl. rewrite app_nil_r.
    repeat split. congruence.
  - destruct (GPIO_set hw (calls w) (pump_gpio p) 1) as [e|] eqn:E;
      [|now destruct (Hfail (calls w))].
    destruct (pump_on_failure_pass hw f reverse clean openValve switchingValve
                now now' p w e Ha Hs E)
      as (w1 & H1 & Hsl1 & Htel1 & Hred1 & Ha1).
    destruct (IH w1 Ha1) as (w2 & H2 & Hsl2 & Htel2 & Hred2).
    exists w2. split; [|split; [|split]].
    + simpl. rewrite (bind_Done _ _ _ _ _ H1). exact H2.
    + rewrite Hsl2, Hsl1. simpl. now rewrite <- app_assoc.
    + congruence.
    + intros _. destruct rest as [|c rest'].
      * simpl in H2. injection H2 as <-. exact Hred1.
      * apply Hred2. discriminate.
Qed.

Lemma pump_on_is_retried_forever_witness :
  exists w',
    handleStartGpio_loop (failing 17 1) both_enabled reverse_line clean_line
      openValve_line switchingValve_line [(10, 10); (11, 11); (12, 12)]
      {| pump_gpio := pump_line; startTs := 0 |} dark
    = Done {| pump_gpio := pump_line; startTs := 0 |} w'
    /\ sleeps_of (trace w') = [Second; Second; Second]
    /\ telemetry_of (trace w') = [] /\ solid Red w' = true.
Proof.
  destruct (pump_on_is_retried_forever (failing 17 1) both_enabled reverse_line
              clean_line openValve_line switchingValve_line
              [(10, 10); (11, 11); (12, 12)]
              {| pump_gpio := pump_line; startTs := 0 |} dark)
    as (w' & Hrun & Hsl & Htel & Hred).
  - unfold allocated; simpl; repeat split; discriminate.
  - reflexivity.
  - intros k. discriminate.
  - exists w'. split; [exact Hrun|]. split; [exact Hsl|].
    split; [exact Htel|]. apply Hred. discriminate.
Defined.

(** With the reverse sub-pipeline disabled, the pass that turns the pump off
    drives the pump line and the green line low, sends one reading and
    sleeps the command gap.  The clean sub-pipeline is not run, whether it
    is enabled or not: it is only reached through the reverse one. *)
Theorem pump_off_pass_without_reverse (hw : Hardware) (f : Flags)
    (reverse clean openValve switchingValve : GPIO) (now now' : Z) (p : Pump)
    (w : World) (g : lights) :
  allocated w -> green w = Some g ->
  State (pump_gpio p) = true ->
  pumpTimer f <= wrap64 (now - startTs p) ->
  GPIO_set hw (calls w) (pump_gpio p) 0 = None ->
  enableReverse f = false ->
  exists w',
    handleStartGpio_iteration hw f reverse clean openValve switchingValve
      now now' p w
    = Done {| pump_gpio := with_State (pump_gpio p) false;
              startTs := startTs p |} w'
    /\ trace w' =
       trace w ++
       [EvLine (Chip (pump_gpio p)) (Line (pump_gpio p)) 0 None;
        EvLine (Chip (gpio g)) (Line (gpio g)) 0
          (GPIO_set hw (S (calls w)) (gpio g) 0);
        EvTelemetry (with_State (pump_gpio p) false);
        EvSleep (commandGap f)]
    /\ solid Green w' = false.
Proof.
  intros Ha Hgreen Hs Hdue Hset Hrev.
  destruct (allocated_inv w Ha) as (g1 & y & r & Hg & Hy & Hr).
  destruct w as [g0 y0 r0 n t]; simpl in Hg, Hy, Hr, Hgreen, Hset.
  rewrite Hg in Hgreen. injection Hgreen as ->. subst.
  assert (E : (wrap64 (now - startTs p) >=? pumpTimer f) = true)
    by (rewrite Z.geb_leb; apply Z.leb_le; exact Hdue).
  unfold handleStartGpio_iteration. rewrite Hs, E. cbn [negb].
  run_pass. rewrite Hset. run_pass. rewrite Hrev. run_pass.
  eexists. split; [reflexivity|]. simpl.
  rewrite <- !app_assoc. repeat split.
Qed.

Lemma pump_off_pass_without_reverse_witness :
  let f := init_flags {| PUMP_TIMEOUT := None; COMMAND_GAP := None;
                         CLEAN_TIMEOUT := None; REVERSE_TIMEOUT := None;
                         GRAVITY_TIMEOUT := None; ENABLE_CLEAN := Some true;
                         ENABLE_REVERSE := Some false |} in
  exists w',
    handleStartGpio_iteration reliable
      {| pumpTimer := 300; enableClean := true; enableReverse := false;
         cleanTimer := cleanTimer f; reverseTimer := reverseTimer f;
         gravityTimer := gravityTimer f; commandGap := commandGap f |}
      reverse_line clean_line openValve_line switchingValve_line 1300 1300
      {| pump_gpio := with_State pump_line true; startTs := 1000 |}
      (board true false false false false false)
    = Done {| pump_gpio := with_State pump_line false; startTs := 1000 |} w'
    /\ lines_of (trace w') =
       [("gpiochip0"%string, 17, 0); ("gpiochip0"%string, 5, 0)]
    /\ sleeps_of (trace w') = [60 * Minute].
Proof.
  intros f.
  destruct (pump_off_pass_without_reverse reliable
              {| pumpTimer := 300; enableClean := true; enableReverse := false;
                 cleanTimer := cleanTimer f; reverseTimer := reverseTimer f;
                 gravityTimer := gravityTimer f; commandGap := commandGap f |}
              reverse_line clean_line openValve_line switchingValve_line
              1300 1300
              {| pump_gpio := with_State pump_line true; startTs := 1000 |}
              (board true false false false false false)
              (light rune_G 5 true false))
    as (w' & Hrun & Htr & _).
  - unfold allocated; simpl; repeat split; discriminate.
  - reflexivity.
  - reflexivity.
  - vm_compute. discriminate.
  - reflexivity.
  - reflexivity.
  - exists w'. split; [exact Hrun|]. rewrite Htr. split; reflexivity.
Defined.

(** Started on the nil pointers, as the process is, the main loop with the
    pump recorded as off ends in a nil dereference in its first pass,
    whatever the lines answer: the pump line has been driven once and
    nothing else was done. *)
Theorem first_pass_dereferences_nil (hw : Hardware) (f : Flags)
    (reverse clean openValve switchingValve : GPIO) (clock : list (Z * Z))
    (p : Pump) (w : World) :
  unallocated w ->
  State (pump_gpio p) = false ->
  clock <> [] ->
  exists w',
    handleStartGpio_loop hw f reverse clean openValve switchingValve clock p w
    = Panic w'
    /\ trace w' =
       trace w ++ [EvLine (Chip (pump_gpio p)) (Line (pump_gpio p)) 1
                     (GPIO_set hw (calls w) (pump_gpio p) 1)].
Proof.
  intros (Hg & Hy & Hr) Hs Hne.
  destruct clock as [|[now now'] rest]; [congruence|].
  destruct w as [g0 y0 r0 n t]; simpl in Hg, Hy, Hr; subst.
  simpl. unfold bind at 1. run_pass. rewrite Hs. run_pass.
  destruct (GPIO_set hw n (pump_gpio p) 1); simpl;
    eexists; split; reflexivity.
Qed.

Lemma first_pass_dereferences_nil_witness :
  exists w',
    handleStartGpio_loop reliable both_enabled reverse_line clean_line
      openValve_line switchingValve_line [(1000, 1000)]
      {| pump_gpio := pump_line; startTs := 0 |} boot = Panic w'
    /\ trace w' = [EvLine "gpiochip0" 17 1 None].
Proof.
  destruct (first_pass_dereferences_nil reliable both_enabled reverse_line
              clean_line openValve_line switchingValve_line [(1000, 1000)]
              {| pump_gpio := pump_line; startTs := 0 |} boot)
    as (w' & Hrun & Htr).
  - repeat split.
  - reflexivity.
  - discriminate.
  - exists w'. split; [exact Hrun|exact Htr].
Defined.

(** ** The two sub-pipelines, further *)

Lemma same_flashing_flashingOf (w w' : World) (c : Color) :
  same_flashing w w' -> flashingOf c w' = flashingOf c w.
Proof.
  intros H. specialize (H c). unfold flashingOf.
  destruct (cell c w'), (cell c w); simpl in H; congruence.
Qed.

(** The clean sub-pipeline on lines that all work. *)
Lemma handleCleanGpio_all_working (hw : Hardware) (f : Flags)
    (clean openValve switchingValve : GPIO) (w : World) (y : lights) :
  never_fails hw -> allocated w -> yellow w = Some y ->
  exists w',
    handleCleanGpio hw f clean openValve switchingValve w = Done tt w'
    /\ trace w' =
       trace w ++
       [EvLine (Chip switchingValve) (Line switchingValve) 1 None;
        EvSleep switchingTimer;
        EvLine (Chip openValve) (Line openValve) 1 None;
        EvSleep openingTimer;
        EvLine (Chip clean) (Line clean) 1 None;
        EvLine (Chip (gpio y)) (Line (gpio y)) 1 None;
        EvTelemetry (with_State clean true);
        EvSleep (cleanTimer f);
        EvLine (Chip clean) (Line clean) 0 None;
        EvLine (Chip (gpio y)) (Line (gpio y)) 0 None;
        EvTelemetry (with_State clean false);
        EvLine (Chip openValve) (Line openValve) 0 None;
        EvSleep openingTimer;
        EvSleep (gravityTimer f);
        EvLine (Chip switchingValve) (Line switchingValve) 0 None;
        EvSleep switchingTimer]
    /\ (forall c, solid c w' = false)
    /\ same_flashing w w'.
Proof.
  intros Hhw Ha Hyellow.
  destruct (allocated_inv w Ha) as (g & y1 & r & Hg & Hy & Hr).
  destruct w as [g0 y0 r0 n t]; simpl in Hg, Hy, Hr, Hyellow.
  rewrite Hy in Hyellow. injection Hyellow as ->. subst.
  pose proof (fun k g v => GPIO_set_never_fails hw k g v Hhw) as Hset.
  run_pass. repeat (rewrite Hset; simpl).
  eexists. split; [reflexivity|]. simpl.
  rewrite <- !app_assoc. split; [reflexivity|].
  split; intros c; destruct c; reflexivity.
Qed.


(** When every line works, the clean sub-pipeline is this sequence and no
    other: switching valve up, 15 s, inlet valve up, 5 s, clean pump up,
    yellow on, a reading, the clean duration, clean pump down, yellow off, a
    reading, inlet valve down, 5 s, the gravity duration, switching valve
    down, 15 s.  It ends with no colour solid and the flashing flags as they
    were. *)
Theorem clean_pipeline_order (hw : Hardware) (f : Flags)
    (clean openValve switchingValve : GPIO) (w : World) (y : lights) :
  never_fails hw -> allocated w -> yellow w = Some y ->
  exists w',
    handleCleanGpio hw f clean openValve switchingValve w = Done tt w'
    /\ trace w' =
       trace w ++
       [EvLine (Chip switchingValve) (Line switchingValve) 1 None;
        EvSleep switchingTimer;
        EvLine (Chip openValve) (Line openValve) 1 None;
        EvSleep openingTimer;
        EvLine (Chip clean) (Line clean) 1 None;
        EvLine (Chip (gpio y)) (Line (gpio y)) 1 None;
        EvTelemetry (with_State clean true);
        EvSleep (cleanTimer f);
        EvLine (Chip clean) (Line clean) 0 None;
        EvLine (Chip (gpio y)) (Line (gpio y)) 0 None;
        EvTelemetry (with_State clean false);
        EvLine (Chip openValve) (Line openValve) 0 None;
        EvSleep openingTimer;
        EvSleep (gravityTimer f);
        EvLine (Chip switchingValve) (Line switchingValve) 0 None;
        EvSleep switchingTimer]
    /\ (forall c, solid c w' = false)
    /\ same_flashing w w'.
Proof.
  apply handleCleanGpio_all_working.
Qed.

Lemma clean_pipeline_order_witness :
  exists w',
    handleCleanGpio reliable both_enabled clean_line openValve_line
      switchingValve_line (board true false false false false true)
    = Done tt w'
    /\ lines_of (trace w') =
       [("gpiochip0"%string, 21, 1); ("gpiochip0"%string, 20, 1);
        ("gpiochip0"%string, 19, 1); ("gpiochip0"%string, 6, 1);
        ("gpiochip0"%string, 19, 0); ("gpiochip0"%string, 6, 0);
        ("gpiochip0"%string, 20, 0); ("gpiochip0"%string, 21, 0)]
    /\ solid Green w' = false /\ flashingOf Red w' = true.
Proof.
  destruct (clean_pipeline_order reliable both_enabled clean_line
              openValve_line switchingValve_line
              (board true false false false false true)
              (light rune_Y 6 false false))
    as (w' & Hrun & Htr & Hsolid & Hfl).
  - intros n chip line v. split; reflexivity.
  - unfold allocated; simpl; repeat split; discriminate.
  - reflexivity.
  - exists w'. split; [exact Hrun|]. split; [rewrite Htr; reflexivity|].
    split; [apply Hsolid|].
    rewrite (same_flashing_flashingOf _ _ Red Hfl). reflexivity.
Defined.

(** When the yellow line fails as the clean pump starts and the three
    actuations before it worked, the sub-pipeline still runs the clean
    duration and calls the clean pump down, then raises the red alarm and
    returns: the inlet valve and the switching valve are not driven back. *)
Theorem yellow_failure_leaves_valves (hw : Hardware) (f : Flags)
    (clean openValve switchingValve : GPIO) (w : World) (y r : lights)
    (e : error) :
  allocated w -> yellow w = Some y -> red w = Some r ->
  GPIO_set hw (calls w) switchingValve 1 = None ->
  GPIO_set hw (S (calls w)) openValve 1 = None ->
  GPIO_set hw (S (S (calls w))) clean 1 = None ->
  GPIO_set hw (S (S (S (calls w)))) (gpio y) 1 = Some e ->
  exists w',
    handleCleanGpio hw f clean openValve switchingValve w = Done tt w'
    /\ lines_of (trace w') =
       lines_of (trace w) ++
       [(Chip switchingValve, Line switchingValve, 1);
        (Chip openValve, Line openValve, 1);
        (Chip clean, Line clean, 1);
        (Chip (gpio y), Line (gpio y), 1);
        (Chip clean, Line clean, 0);
        (Chip (gpio r), Line (gpio r), 1)]
    /\ sleeps_of (trace w') =
       sleeps_of (trace w) ++ [switchingTimer; openingTimer; cleanTimer f]
    /\ solid Red w' = true.
Proof.
  intros Ha Hyellow Hred H1 H2 H3 H4.
  destruct (allocated_inv w Ha) as (g & y1 & r1 & Hg & Hy & Hr).
  destruct w as [g0 y0 r0 n t]; simpl in Hg, Hy, Hr, Hyellow, Hred, H1, H2, H3, H4.
  rewrite Hy in Hyellow. injection Hyellow as ->.
  rewrite Hr in Hred. injection Hred as ->. subst.
  run_pass. rewrite H1. simpl. rewrite H2. simpl. rewrite H3. simpl.
  rewrite H4. simpl.
  eexists. split; [reflexivity|]. simpl.
  unfold lines_of, sleeps_of. rewrite !flat_map_app. simpl.
  rewrite <- ?app_assoc. simpl. rewrite ?app_nil_r. repeat split.
Qed.

Lemma yellow_failure_leaves_valves_witness :
  exists w',
    handleCleanGpio (failing 6 1) both_enabled clean_line openValve_line
      switchingValve_line dark = Done tt w'
    /\ lines_of (trace w') =
       [("gpiochip0"%string, 21, 1); ("gpiochip0"%string, 20, 1);
        ("gpiochip0"%string, 19, 1); ("gpiochip0"%string, 6, 1);
        ("gpiochip0"%string, 19, 0); ("gpiochip0"%string, 7, 1)].
Proof.
  destruct (yellow_failure_leaves_valves (failing 6 1) both_enabled clean_line
              openValve_line switchingValve_line dark
              (light rune_Y 6 false false) (light rune_R 7 false false)
              "request failed"%string)
    as (w' & Hrun & Hlines & _).
  - unfold allocated; simpl; repeat split; discriminate.
  - reflexivity.
  - reflexivity.
  - reflexivity.
  - reflexivity.
  - reflexivity.
  - reflexivity.
  - exists w'. split; [exact Hrun|exact Hlines].
Defined.

(** A sub-pipeline whose first actuation fails does nothing else than raise
    the red alarm: the reverse sub-pipeline sets no flashing flag, starts no
    task, sends no reading and does not enter the clean one; the clean
    sub-pipeline drives no other line.  Neither sleeps. *)
Theorem first_step_failure (hw : Hardware) (f : Flags)
    (reverse clean openValve switchingValve : GPIO) (w : World) (r : lights)
    (e : error) :
  allocated w -> red w = Some r ->
  (GPIO_set hw (calls w) reverse 1 = Some e ->
   exists w',
     handleReverseGpio hw f reverse clean openValve switchingValve w
     = Done tt w'
     /\ trace w' =
        trace w ++
        [EvLine (Chip reverse) (Line reverse) 1 (Some e);
         EvLine (Chip (gpio r)) (Line (gpio r)) 1
           (GPIO_set hw (S (calls w)) (gpio r) 1)]
     /\ solid Red w' = true /\ same_flashing w w')
  /\
  (GPIO_set hw (calls w) switchingValve 1 = Some e ->
   exists w',
     handleCleanGpio hw f clean openValve switchingValve w = Done tt w'
     /\ trace w' =
        trace w ++
        [EvLine (Chip switchingValve) (Line switchingValve) 1 (Some e);
         EvLine (Chip (gpio r)) (Line (gpio r)) 1
           (GPIO_set hw (S (calls w)) (gpio r) 1)]
     /\ solid Red w' = true /\ same_flashing w w').
Proof.
  intros Ha Hred.
  destruct (allocated_inv w Ha) as (g & y & r1 & Hg & Hy & Hr).
  destruct w as [g0 y0 r0 n t]; simpl in Hg, Hy, Hr, Hred.
  rewrite Hr in Hred. injection Hred as ->. subst.
  split; intros Hset; simpl in Hset; run_pass; rewrite Hset; simpl.
  all: eexists; split; [reflexivity|]; simpl.
  all: rewrite <- !app_assoc; split; [reflexivity|].
  all: split; [reflexivity|].
  all: intros c; destruct c; reflexivity.
Qed.

Lemma first_step_failure_witness :
  exists w',
    handleReverseGpio (failing 18 1) both_enabled reverse_line clean_line
      openValve_line switchingValve_line dark = Done tt w'
    /\ lines_of (trace w') =
       [("gpiochip0"%string, 18, 1); ("gpiochip0"%string, 7, 1)]
    /\ flash_tasks (trace w') = [] /\ telemetry_of (trace w') = [].
Proof.
  destruct (first_step_failure (failing 18 1) both_enabled reverse_line
              clean_line openValve_line switchingValve_line dark
              (light rune_R 7 false false) "request failed"%string)
    as [Hrev _].
  - unfold allocated; simpl; repeat split; discriminate.
  - reflexivity.
  - destruct (Hrev eq_refl) as (w' & Hrun & Htr & _).
    exists w'. split; [exact Hrun|]. rewrite Htr. repeat split.
Defined.

(** ** Role resolution *)

Lemma HandleLight_other_line (g : GPIO) (w : World) :
  (Line g =? 5) || (Line g =? 6) || (Line g =? 7) = false ->
  HandleLight g w = Done tt w.
Proof.
  intros H. apply orb_false_elim in H. destruct H as [H H7].
  apply orb_false_elim in H. destruct H as [H5 H6].
  unfold HandleLight. now rewrite H5, H6, H7.
Qed.

Lemma HandleLight_on_nil (g : GPIO) (w : World) :
  unallocated w ->
  (Line g =? 5) || (Line g =? 6) || (Line g =? 7) = true ->
  HandleLight g w = Panic w.
Proof.
  intros (Hg & Hy & Hr) H. unfold HandleLight.
  destruct w as [g0 y0 r0 n t]; simpl in Hg, Hy, Hr; subst.
  destruct (Line g =? 5); [reflexivity|].
  destruct (Line g =? 6); [reflexivity|].
  destruct (Line g =? 7); [reflexivity|discriminate].
Qed.

Lemma gpioHandler_case_on_nil (names : RoleNames) (f : Flags) (r : Roles)
    (gpio : GPIO) (w : World) :
  unallocated w ->
  if known_light names gpio
  then gpioHandler_case names f r gpio w = Panic w
  else exists r',
      gpioHandler_case names f r gpio w = Done r' w
      /\ pump_role r' = (if is_pump names gpio then gpio else pump_role r)
      /\ (enableReverse f = false -> reversePump_role r' = reversePump_role r)
      /\ (enableClean f = false ->
          clean_role r' = clean_role r
          /\ openValve_role r' = openValve_role r
          /\ switchingValve_role r' = switchingValve_role r).
Proof.
  intros Hnil.
  unfold known_light, is_light, is_pump, gpioHandler_case. cbv zeta.
  destruct (String.eqb (Name gpio) (START_TRIGGER names));
    [simpl; eexists; repeat split|].
  destruct (String.eqb (Name gpio) (REVERSE_TRIGGER names));
    [simpl; destruct (enableReverse f); eexists; repeat split; congruence|].
  destruct (String.eqb (Name gpio) (CLEAN_TRIGGER names));
    [simpl; destruct (enableClean f); eexists; repeat split; congruence|].
  destruct (String.eqb (Name gpio) (OPEN_VALVE names));
    [simpl; destruct (enableClean f); eexists; repeat split; congruence|].
  destruct (String.eqb (Name gpio) (SWITCHING_VALVE names));
    [simpl; destruct (enableClean f); eexists; repeat split; congruence|].
  destruct (Contains (Name gpio) (LIGHT names));
    [|simpl; eexists; repeat split].
  simpl. destruct ((Line gpio =? 5) || (Line gpio =? 6) || (Line gpio =? 7))
    eqn:E.
  - unfold bind. now rewrite (HandleLight_on_nil gpio w Hnil E).
  - unfold bind. rewrite (HandleLight_other_line gpio w E).
    eexists; repeat split.
Qed.

(** A configuration that names a light on line 5, 6 or 7 ends the process
    while [Initialize] is still running: [gpioHandler] calls [HandleLight]
    on it and the pointer of its colour is nil. *)
Theorem configured_light_crashes_gpioHandler (names : RoleNames) (f : Flags)
    (gpios : list GPIO) (w : World) :
  unallocated w ->
  existsb (known_light names) gpios = true ->
  exists w', gpioHandler names f gpios w = Panic w'.
Proof.
  intros Hnil. unfold gpioHandler. generalize no_roles.
  induction gpios as [|g rest IH]; intros r Hex; simpl in *; [discriminate|].
  pose proof (gpioHandler_case_on_nil names f r g w Hnil) as Hcase.
  unfold bind at 1.
  destruct (known_light names g).
  - rewrite Hcase. now exists w.
  - destruct Hcase as (r' & Hrun & _). rewrite Hrun. apply IH. exact Hex.
Qed.

Lemma configured_light_crashes_gpioHandler_witness :
  let names := {| START_TRIGGER := "pump"; REVERSE_TRIGGER := "reverse";
                  CLEAN_TRIGGER := "clean"; OPEN_VALVE := "openValve";
                  SWITCHING_VALVE := "switchingValve"; LIGHT := "light" |} in
  exists w',
    gpioHandler names both_enabled
      [pump_line; reverse_line; line_on "green-light" 5; clean_line] boot
    = Panic w'.
Proof.
  intros names.
  apply (configured_light_crashes_gpioHandler names both_enabled
           [pump_line; reverse_line; line_on "green-light" 5; clean_line] boot).
  - repeat split.
  - reflexivity.
Defined.

Lemma last_filter_cons {A} (p : A -> bool) (x d : A) (l : list A) :
  last (filter p (x :: l)) d = last (filter p l) (if p x then x else d).
Proof.
  simpl. destruct (p x); [|reflexivity].
  generalize (filter p l) as m. intros m. revert x d.
  induction m as [|y m IH]; intros x d; [reflexivity|].
  change (last (x :: y :: m) d) with (last (y :: m) d).
  now rewrite (IH y d), (IH y x).
Qed.

(** Without such a light [gpioHandler] returns and touches nothing.  The
    pump it starts the sequencer with is the last configured line named by
    START_TRIGGER, and the zero value, line 0 of the chip with the empty
    name, when no line has that name.  The reverse line stays the zero value
    when reverse is disabled, and so do the three clean lines when clean is
    disabled. *)
Theorem gpioHandler_roles (names : RoleNames) (f : Flags) (gpios : list GPIO)
    (w : World) :
  unallocated w ->
  existsb (known_light names) gpios = false ->
  exists r,
    gpioHandler names f gpios w = Done r w
    /\ pump_role r = last (filter (is_pump names) gpios) zero_GPIO
    /\ (enableReverse f = false -> reversePump_role r = zero_GPIO)
    /\ (enableClean f = false ->
        clean_role r = zero_GPIO /\ openValve_role r = zero_GPIO
        /\ switchingValve_role r = zero_GPIO).
Proof.
  intros Hnil Hex. unfold gpioHandler.
  change zero_GPIO with (pump_role no_roles) at 1.
  change zero_GPIO with (reversePump_role no_roles) at 1.
  change zero_GPIO with (clean_role no_roles) at 1.
  change zero_GPIO with (openValve_role no_roles) at 1.
  change zero_GPIO with (switchingValve_role no_roles) at 1.
  generalize no_roles. revert Hex.
  induction gpios as [|g rest IH]; intros Hex r0.
  - exists r0. simpl. repeat split.
  - simpl in Hex. apply orb_false_elim in Hex. destruct Hex as [Hg Hrest].
    pose proof (gpioHandler_case_on_nil names f r0 g w Hnil) as Hcase.
    rewrite Hg in Hcase. destruct Hcase as (r1 & Hrun & Hp & Hr & Hc).
    destruct (IH Hrest r1) as (r & Hrun' & Hp' & Hr' & Hc').
    exists r. split; [|split; [|split]].
    + cbn [gpioHandler_range]. rewrite (bind_Done _ _ _ _ _ Hrun). exact Hrun'.
    + rewrite Hp', Hp. symmetry. apply last_filter_cons.
    + intros H. rewrite (Hr' H). apply Hr, H.
    + intros H. destruct (Hc' H) as (-> & -> & ->). apply Hc, H.
Qed.

Lemma gpioHandler_roles_witness :
  let names := {| START_TRIGGER := "pump"; REVERSE_TRIGGER := "reverse";
                  CLEAN_TRIGGER := "clean"; OPEN_VALVE := "openValve";
                  SWITCHING_VALVE := "switchingValve"; LIGHT := "light" |} in
  let f := {| pumpTimer := 300; enableClean := true; enableReverse := false;
              cleanTimer := 5 * Minute; reverseTimer := 5 * Minute;
              gravityTimer := 5 * Minute; commandGap := 60 * Minute |} in
  exists r,
    gpioHandler names f
      [line_on "pump" 3; reverse_line; line_on "pump" 17;
       line_on "light" 9] boot = Done r boot
    /\ pump_role r = line_on "pump" 17 /\ reversePump_role r = zero_GPIO.
Proof.
  intros names f.
  destruct (gpioHandler_roles names f
              [line_on "pump" 3; reverse_line; line_on "pump" 17;
               line_on "light" 9] boot)
    as (r & Hrun & Hp & Hr & _).
  - repeat split.
  - reflexivity.
  - exists r. split; [exact Hrun|]. split; [exact Hp|]. apply Hr. reflexivity.
Defined.

(** ** The readiness loop, further *)

Lemma readiness_exits_when_budget_spent (probes : list Probe) (a : Z)
    (w : World) :
  forallb (fun p => negb (starts_pipeline p)) probes = true ->
  a <= MAX_RETRY ->
  MAX_RETRY < a + registry_failures probes ->
  exits (readiness probes a w).
Proof.
  revert a w. induction probes as [|p rest IH]; intros a w Hno Ha Hrf.
  - unfold registry_failures in Hrf. simpl in Hrf. lia.
  - simpl in Hno. apply andb_prop in Hno. destruct Hno as [Hp Hrest].
    destruct p as [| |StatusCode|]; simpl in *.
    + unfold bind at 1. destruct (a + 1 >? MAX_RETRY) eqn:E; [exact I|].
      unfold ret, bind, Sleep, emit. apply IH; [exact Hrest| |].
      * rewrite Z.gtb_ltb in E. apply Z.ltb_ge in E. exact E.
      * unfold registry_failures in *. simpl in Hrf. lia.
    + unfold bind, Sleep, emit. apply IH; [exact Hrest|exact Ha|].
      unfold registry_failures in *. simpl in Hrf. exact Hrf.
    + destruct (StatusCode =? 200); [discriminate|].
      apply IH; [exact Hrest|exact Ha|].
      unfold registry_failures in *. simpl in Hrf. exact Hrf.
    + discriminate.
Qed.

(** While no pass starts the pipeline, the readiness loop ends the process
    exactly when more than [MAX_RETRY] registry lookups have failed in all:
    the failures are counted over the whole wait, not in a row, and neither
    an endpoint failure nor an unreadable answer between them resets or
    spends the count. *)
Theorem readiness_exits_iff (probes : list Probe) (w : World) :
  forallb (fun p => negb (starts_pipeline p)) probes = true ->
  exits (readiness probes 0 w) <-> MAX_RETRY < registry_failures probes.
Proof.
  intros Hno. split.
  - intros Hex. destruct (readiness probes 0 w) as [x w'|w'|code w'] eqn:E;
      try contradiction.
    apply readiness_exit_cause in E. destruct E as [_ E]. exact E.
  - intros Hrf. apply readiness_exits_when_budget_spent;
      [exact Hno|discriminate|exact Hrf].
Qed.

Lemma readiness_exits_iff_witness :
  let probes := [RegistryErr; RegistryErr; EndpointErr; BodyErr 503;
                 RegistryErr; RegistryErr; EndpointErr; RegistryErr;
                 RegistryErr] in
  exits (readiness probes 0 boot) /\ registry_failures probes = 6.
Proof.
  intros probes. split; [|reflexivity].
  apply (proj2 (readiness_exits_iff probes boot eq_refl)).
  vm_compute. reflexivity.
Defined.

Lemma readiness_starts_from (pre post : list Probe) (p : Probe) :
  forallb (fun p => negb (starts_pipeline p)) pre = true ->
  starts_pipeline p = true ->
  forall (a : Z) (w : World),
    a + registry_failures pre <= MAX_RETRY ->
    exists w',
      readiness (pre ++ p :: post) a w
      = Done (true, a + registry_failures pre) w'
      /\ trace w' = trace w ++ repeat (EvSleep (5 * Second)) (waits pre).
Proof.
  intros Hno Hp. induction pre as [|q pre IH]; intros a w Ha.
  - exists w. simpl. rewrite app_nil_r.
    replace (a + registry_failures []) with a
      by (unfold registry_failures; simpl; lia).
    destruct p as [| |StatusCode|]; simpl in Hp; try discriminate.
    + rewrite Hp. split; reflexivity.
    + split; reflexivity.
  - simpl in Hno. apply andb_prop in Hno. destruct Hno as [Hq Hpre].
    assert (Hcount : 0 <= registry_failures pre)
      by (unfold registry_failures; lia).
    destruct q as [| |StatusCode|]; simpl in Hq; try discriminate.
    + assert (Hrf : registry_failures (RegistryErr :: pre)
                    = 1 + registry_failures pre)
        by (unfold registry_failures; cbn [filter List.length];
            rewrite Nat2Z.inj_succ; lia).
      rewrite Hrf in *.
      destruct (IH Hpre (a + 1)
                  {| green := green w; yellow := yellow w; red := red w;
                     calls := calls w;
                     trace := trace w ++ [EvSleep (5 * Second)] |})
        as (w' & Hrun & Htr); [lia|].
      exists w'. split.
      * cbn [app readiness]. cbv zeta. unfold bind at 1.
        destruct (a + 1 >? MAX_RETRY) eqn:E;
          [rewrite Z.gtb_ltb in E; apply Z.ltb_lt in E; lia|].
        unfold ret, bind, Sleep, emit. cbv beta iota.
        rewrite Hrun. f_equal. f_equal. lia.
      * rewrite Htr. simpl. now rewrite <- app_assoc.
    + assert (Hrf : registry_failures (EndpointErr :: pre)
                    = registry_failures pre) by reflexivity.
      rewrite Hrf in *.
      destruct (IH Hpre a
                  {| green := green w; yellow := yellow w; red := red w;
                     calls := calls w;
                     trace := trace w ++ [EvSleep (5 * Second)] |})
        as (w' & Hrun & Htr); [lia|].
      exists w'. split.
      * cbn [app readiness]. unfold bind, Sleep, emit. cbv beta iota.
        exact Hrun.
      * rewrite Htr. simpl. now rewrite <- app_assoc.
    + assert (Hrf : registry_failures (BodyErr StatusCode :: pre)
                    = registry_failures pre) by reflexivity.
      rewrite Hrf in *.
      destruct (IH Hpre a w) as (w' & Hrun & Htr); [lia|].
      exists w'. split; [|exact Htr].
      cbn [app readiness]. apply negb_true_iff in Hq. rewrite Hq.
      exact Hrun.
Qed.

(** The first pass whose answer is read, or whose status is 200 when the
    body cannot be read, starts the pipeline, provided at most [MAX_RETRY]
    registry lookups failed before it.  Until then the loop slept five
    seconds after each failed lookup and each failed request, and not at all
    after an unreadable answer with another status, which is checked again
    at once. *)
Theorem readiness_starts (pre post : list Probe) (p : Probe) (w : World) :
  forallb (fun p => negb (starts_pipeline p)) pre = true ->
  starts_pipeline p = true ->
  registry_failures pre <= MAX_RETRY ->
  exists w',
    readiness (pre ++ p :: post) 0 w = Done (true, registry_failures pre) w'
    /\ trace w' = trace w ++ repeat (EvSleep (5 * Second)) (waits pre).
Proof.
  intros Hno Hp Hrf.
  apply (readiness_starts_from pre post p Hno Hp 0 w). exact Hrf.
Qed.

Lemma readiness_starts_witness :
  exists w',
    readiness [RegistryErr; BodyErr 500; BodyErr 500; EndpointErr;
               BodyErr 200; RegistryErr] 0 boot = Done (true, 1) w'
    /\ trace w' = [EvSleep (5 * Second); EvSleep (5 * Second)].
Proof.
  apply (readiness_starts [RegistryErr; BodyErr 500; BodyErr 500; EndpointErr]
           [RegistryErr] (BodyErr 200) boot).
  - reflexivity.
  - reflexivity.
  - vm_compute. discriminate.
Defined.

(** ** What [Initialize] keeps of its input *)

(** A duration that parses and is at or above its floor is used as given,
    one below is raised to the floor; a variable that does not parse gives
    60 minutes for the command gap and 5 minutes for the three others.  The
    two switches are on only when their variable parses as true. *)
Theorem Initialize_values (e : Environ) :
  let f := fst (Initialize e) in
  commandGap f =
    match COMMAND_GAP e with
    | Some d => Z.max d MIN_COMMAND_GAP
    | None => 60 * Minute
    end
  /\ cleanTimer f =
     match CLEAN_TIMEOUT e with
     | Some d => Z.max d MIN_CLEAN_TIMER
     | None => 5 * Minute
     end
  /\ reverseTimer f =
     match REVERSE_TIMEOUT e with
     | Some d => Z.max d MIN_REVERSE_TIMER
     | None => 5 * Minute
     end
  /\ gravityTimer f =
     match GRAVITY_TIMEOUT e with
     | Some d => Z.max d MIN_GRAVITY_TIMER
     | None => 5 * Minute
     end
  /\ (enableClean f = true <-> ENABLE_CLEAN e = Some true)
  /\ (enableReverse f = true <-> ENABLE_REVERSE e = Some true).
Proof.
  assert (Hmax : forall d floor, init_duration (Some d) (5 * Minute) floor
                                 = Z.max d floor
                                 /\ init_duration (Some d) (60 * Minute) floor
                                    = Z.max d floor).
  { intros d floor. unfold init_duration. cbv zeta.
    destruct (d <? floor) eqn:E.
    - apply Z.ltb_lt in E. split; symmetry; apply Z.max_r; lia.
    - apply Z.ltb_ge in E. split; symmetry; apply Z.max_l; lia. }
  simpl.
  destruct e as [pump gap cl rev grav ec er]; simpl.
  repeat split.
  - destruct gap as [d|]; [apply Hmax|reflexivity].
  - destruct cl as [d|]; [apply Hmax|reflexivity].
  - destruct rev as [d|]; [apply Hmax|reflexivity].
  - destruct grav as [d|]; [apply Hmax|reflexivity].
  - destruct ec as [[|]|]; simpl; congruence.
  - destruct ec as [[|]|]; simpl; congruence.
  - destruct er as [[|]|]; simpl; congruence.
  - destruct er as [[|]|]; simpl; congruence.
Qed.

(** With a PUMP_TIMEOUT that parses to a duration under 2^24 seconds (the
    range in which [Seconds_int64] is the value the float conversion gives),
    the pump runs the parsed whole seconds, at least 300, and the sleep of
    the hold branch is that many seconds without overflow.  With one that
    does not parse the count is 300000000000 seconds, and the sleep of the
    hold branch wraps around to 4852094820647174144 ns. *)
Theorem hold_sleep_of_Initialize (d : Duration) :
  - (2 ^ 24 * Second) < d < 2 ^ 24 * Second ->
  let t := init_pumpTimer (Some d) in
  300 <= t
  /\ (300 <= Seconds_int64 d -> t = Seconds_int64 d)
  /\ wrap64 (t * Second) = t * Second
  /\ wrap64 (init_pumpTimer None * Second) = 4852094820647174144.
Proof.
  intros Hd t.
  change (2 ^ 24 * Second) with 16777216000000000 in Hd.
  assert (Hd64 : - 2 ^ 63 <= d < 2 ^ 63).
  { change (2 ^ 63) with 9223372036854775808. lia. }
  pose proof (Seconds_int64_bound d Hd64) as Hb.
  assert (Ht : 300 <= t /\ t < 9223372037
               /\ (300 <= Seconds_int64 d -> t = Seconds_int64 d)).
  { unfold t, init_pumpTimer.
    change (MIN_PUMP * Seconds_int64 Minute) with 300.
    destruct (Seconds_int64 d <? 300) eqn:E.
    - apply Z.ltb_lt in E. lia.
    - apply Z.ltb_ge in E. lia. }
  destruct Ht as (Hlo & Hhi & Hsame).
  split; [exact Hlo|]. split; [exact Hsame|]. split; [|reflexivity].
  unfold wrap64, Second.
  change (2 ^ 63) with 9223372036854775808.
  change (2 ^ 64) with 18446744073709551616.
  rewrite Z.mod_small; lia.
Qed.

Lemma hold_sleep_of_Initialize_witness :
  init_pumpTimer (Some (10 * Minute + 999999999)) = 600
  /\ wrap64 (init_pumpTimer (Some (10 * Minute + 999999999)) * Second)
     = 600 * Second.
Proof.
  split; [reflexivity|].
  apply (hold_sleep_of_Initialize (10 * Minute + 999999999)).
  vm_compute. split; congruence.
Defined.

(** ** What the sequencer never does to a line of its own *)

Lemma never_lowers_refl (chip : string) (line : Z) (w : World) :
  never_lowers chip line w w.
Proof. intros _. split; reflexivity. Qed.

Lemma never_lowers_trans (chip : string) (line : Z) (w1 w2 w3 : World) :
  never_lowers chip line w1 w2 -> never_lowers chip line w2 w3 ->
  never_lowers chip line w1 w3.
Proof.
  intros H12 H23 Hoff. destruct (H12 Hoff) as [Hg12 Ht12].
  assert (Hoff2 : lights_off_line chip line w2).
  { intros c l Hc Hcell. specialize (Hg12 c). rewrite Hcell in Hg12.
    destruct (cell c w1) as [l1|] eqn:E; simpl in Hg12; [|discriminate].
    injection Hg12 as ->. apply (Hoff c l1 Hc E). }
  destruct (H23 Hoff2) as [Hg23 Ht23]. split.
  - intros c. rewrite (Hg23 c). apply Hg12.
  - congruence.
Qed.

Lemma lowers_emit (chip : string) (line : Z) (e : Event) :
  lowers chip line e = false ->
  respects (never_lowers chip line) (emit e).
Proof.
  intros He w _. split; [intros c; destruct c; reflexivity|].
  simpl. rewrite filter_app. simpl. rewrite He. apply app_nil_r.
Qed.

Lemma lowers_actuate (chip : string) (line : Z) (hw : Hardware) (g : GPIO)
    (v : Z) :
  v = 1 \/ on_line chip line g = false ->
  respects (never_lowers chip line) (actuate hw g v).
Proof.
  intros Hv w _. split; [intros c; destruct c; reflexivity|].
  simpl. rewrite filter_app. simpl.
  assert (E : String.eqb (Chip g) chip && (Line g =? line) && (v =? 0) = false).
  { destruct Hv as [->|Hoff]; [apply andb_false_r|].
    unfold on_line in Hoff. now rewrite Hoff. }
  rewrite E. apply app_nil_r.
Qed.

Lemma lowers_deref (chip : string) (line : Z) (c : Color) :
  respects (never_lowers chip line) (deref c).
Proof.
  intros w. unfold deref. destruct (cell c w); apply never_lowers_refl.
Qed.

Lemma lowers_set_status (chip : string) (line : Z) (c : Color) (b : bool) :
  respects (never_lowers chip line) (set_status c b).
Proof.
  intros w _. unfold set_status, bind, deref, assign.
  destruct (cell c w) as [l|] eqn:E; simpl; [|split; reflexivity].
  rewrite E. split; [|destruct c; reflexivity].
  intros o. destruct c, o; simpl in *; try reflexivity; rewrite E; reflexivity.
Qed.

Lemma lowers_set_flashing (chip : string) (line : Z) (c : Color) (b : bool) :
  respects (never_lowers chip line) (set_flashing c b).
Proof.
  intros w _. unfold set_flashing, bind, deref, assign.
  destruct (cell c w) as [l|] eqn:E; simpl; [|split; reflexivity].
  rewrite E. split; [|destruct c; reflexivity].
  intros o. destruct c, o; simpl in *; try reflexivity; rewrite E; reflexivity.
Qed.

Create HintDb lines.
#[local] Hint Resolve never_lowers_refl lowers_deref lowers_set_status
  lowers_set_flashing : lines.
#[local] Hint Unfold Sleep handleAsyncCommunication GPIO_Up GPIO_Down
  raise_alarm : lines.

Ltac line_step :=
  match goal with
  | |- respects (never_lowers _ _) (bind _ _) =>
      apply respects_bind; [apply never_lowers_trans| |intros ?]
  | |- respects (never_lowers _ _) (ret _) =>
      apply respects_ret; apply never_lowers_refl
  | |- respects (never_lowers _ _) (emit _) => apply lowers_emit; reflexivity
  | |- respects (never_lowers _ _) (actuate _ _ 1) =>
      apply lowers_actuate; left; reflexivity
  | |- respects (never_lowers _ _) (actuate _ _ 0) =>
      apply lowers_actuate; right; assumption
  | |- respects _ (if ?b then _ else _) => destruct b
  | |- respects _ (match ?x with _ => _ end) => destruct x
  | |- _ => progress cbv zeta
  | |- _ => solve [auto with lines]
  | |- _ => progress autounfold with lines
  end.

Ltac lines := repeat line_step.

Lemma lowers_Up (chip : string) (line : Z) (hw : Hardware) (color : rune) :
  respects (never_lowers chip line) (Up hw color).
Proof. unfold Up. lines. Qed.

Lemma lowers_SetFlashOn (chip : string) (line : Z) (color : rune) :
  respects (never_lowers chip line) (SetFlashOn color).
Proof. unfold SetFlashOn. lines. Qed.

Lemma lowers_SetFlashOff (chip : string) (line : Z) (color : rune) :
  respects (never_lowers chip line) (SetFlashOff color).
Proof. unfold SetFlashOff. lines. Qed.

(** [Down] of green or of yellow drives the line of that light, which is
    not the line in question. *)
Lemma lowers_Down (chip : string) (line : Z) (hw : Hardware) (c : Color) :
  c <> Red -> respects (never_lowers chip line) (Down hw (rune_of c)).
Proof.
  intros Hc w Hoff.
  destruct (cell c w) as [l|] eqn:E.
  - pose proof (Hoff c l Hc E) as Hline.
    assert (Hrest : respects (never_lowers chip line)
                      (err <- GPIO_Down hw (gpio l) ;;
                       set_status c false ;; ret err)) by lines.
    specialize (Hrest w Hoff).
    destruct w as [g0 y0 r0 n t].
    destruct c; try congruence; simpl in E; subst; exact Hrest.
  - destruct w as [g0 y0 r0 n t].
    destruct c; try congruence; simpl in E; subst; split; reflexivity.
Qed.

#[local] Hint Resolve lowers_Up lowers_SetFlashOn lowers_SetFlashOff : lines.

Lemma lowers_Down_G (chip : string) (line : Z) (hw : Hardware) :
  respects (never_lowers chip line) (Down hw rune_G).
Proof. apply (lowers_Down chip line hw Green). discriminate. Qed.

Lemma lowers_Down_Y (chip : string) (line : Z) (hw : Hardware) :
  respects (never_lowers chip line) (Down hw rune_Y).
Proof. apply (lowers_Down chip line hw Yellow). discriminate. Qed.

#[local] Hint Resolve lowers_Down_G lowers_Down_Y : lines.

Lemma lowers_handleCleanGpio (chip : string) (line : Z) (hw : Hardware)
    (f : Flags) (clean openValve switchingValve : GPIO) :
  on_line chip line clean = false ->
  on_line chip line openValve = false ->
  on_line chip line switchingValve = false ->
  respects (never_lowers chip line)
    (handleCleanGpio hw f clean openValve switchingValve).
Proof. intros Hc Ho Hs. unfold handleCleanGpio. lines. Qed.

Lemma lowers_handleReverseGpio (chip : string) (line : Z) (hw : Hardware)
    (f : Flags) (reverse clean openValve switchingValve : GPIO) :
  on_line chip line reverse = false ->
  on_line chip line clean = false ->
  on_line chip line openValve = false ->
  on_line chip line switchingValve = false ->
  respects (never_lowers chip line)
    (handleReverseGpio hw f reverse clean openValve switchingValve).
Proof.
  intros Hr Hc Ho Hs. unfold handleReverseGpio. lines.
  all: apply lowers_handleCleanGpio; assumption.
Qed.

Lemma lowers_handleStartGpio_iteration (chip : string) (line : Z)
    (hw : Hardware) (f : Flags) (reverse clean openValve switchingValve : GPIO)
    (now now' : Z) (p : Pump) :
  on_line chip line (pump_gpio p) = false ->
  on_line chip line reverse = false ->
  on_line chip line clean = false ->
  on_line chip line openValve = false ->
  on_line chip line switchingValve = false ->
  respects (never_lowers chip line)
    (handleStartGpio_iteration hw f reverse clean openValve switchingValve
       now now' p).
Proof.
  intros Hp Hr Hc Ho Hs. unfold handleStartGpio_iteration. lines.
  all: apply lowers_handleReverseGpio; assumption.
Qed.

Lemma returns_ret {A} (Q : A -> Prop) (a : A) : Q a -> returns Q (ret a).
Proof. intros H w. exact H. Qed.

Lemma returns_bind {A B} (Q : B -> Prop) (m : M A) (k : A -> M B) :
  (forall a, returns Q (k a)) -> returns Q (bind m k).
Proof.
  intros Hk w. unfold bind. destruct (m w) as [a w1|w1|code w1]; try exact I.
  apply Hk.
Qed.

(** A pass of the main loop changes the [State] of the pump line at most:
    its chip and its line number stay. *)
Lemma iteration_keeps_pump_line (hw : Hardware) (f : Flags)
    (reverse clean openValve switchingValve : GPIO) (now now' : Z) (p : Pump) :
  returns (fun p' => Chip (pump_gpio p') = Chip (pump_gpio p)
                     /\ Line (pump_gpio p') = Line (pump_gpio p))
    (handleStartGpio_iteration hw f reverse clean openValve switchingValve
       now now' p).
Proof.
  unfold handleStartGpio_iteration. cbv zeta.
  repeat match goal with
         | |- returns _ (bind _ _) => apply returns_bind; intros ?
         | |- returns _ (ret _) => apply returns_ret; split; reflexivity
         | |- returns _ (if ?b then _ else _) => destruct b
         | |- returns _ (match ?x with _ => _ end) => destruct x
         end.
Qed.

(** The main loop drives low no line but the pump line, the reverse line,
    the three clean lines and the lines of the green and the yellow light.
    A red light wired to a line of its own is therefore never switched off
    by the sequencer, however long it runs and whatever the lines answer:
    an alarm once raised stays lit. *)
Theorem main_loop_never_lowers_other_lines (chip : string) (line : Z)
    (hw : Hardware) (f : Flags) (reverse clean openValve switchingValve : GPIO)
    (clock : list (Z * Z)) (p : Pump) (w : World) :
  on_line chip line (pump_gpio p) = false ->
  on_line chip line reverse = false ->
  on_line chip line clean = false ->
  on_line chip line openValve = false ->
  on_line chip line switchingValve = false ->
  lights_off_line chip line w ->
  filter (lowers chip line)
    (trace (world_of (handleStartGpio_loop hw f reverse clean openValve
                        switchingValve clock p w)))
  = filter (lowers chip line) (trace w).
Proof.
  intros Hp Hr Hc Ho Hs Hoff.
  assert (Hloop : forall p0,
            on_line chip line (pump_gpio p0) = false ->
            respects (never_lowers chip line)
              (handleStartGpio_loop hw f reverse clean openValve
                 switchingValve clock p0)).
  { induction clock as [|[now now'] rest IH]; intros p0 Hp0; simpl.
    - apply respects_ret, never_lowers_refl.
    - intros w0. unfold bind.
      pose proof (lowers_handleStartGpio_iteration chip line hw f reverse clean
                    openValve switchingValve now now' p0 Hp0 Hr Hc Ho Hs w0)
        as Hstep.
      pose proof (iteration_keeps_pump_line hw f reverse clean openValve
                    switchingValve now now' p0 w0) as Hkeep.
      destruct (handleStartGpio_iteration hw f reverse clean openValve
                  switchingValve now now' p0 w0) as [p1 w1|w1|code w1];
        simpl in *; try exact Hstep.
      eapply never_lowers_trans; [exact Hstep|]. apply IH.
      destruct Hkeep as [Hchip Hline]. unfold on_line in *.
      now rewrite Hchip, Hline. }
  apply (Hloop p Hp w Hoff).
Qed.

Lemma main_loop_never_lowers_other_lines_witness :
  let w' :=
    world_of (handleStartGpio_loop (failing 17 0) both_enabled reverse_line
                clean_line openValve_line switchingValve_line
                [(1000, 1000); (1001, 1001); (2000, 2000); (2001, 2001)]
                {| pump_gpio := pump_line; startTs := 0 |} dark) in
  filter (lowers "gpiochip0" 7) (trace w') = []
  /\ In ("gpiochip0"%string, 7, 1) (lines_of (trace w')).
Proof.
  intros w'. split.
  - apply (main_loop_never_lowers_other_lines "gpiochip0" 7 (failing 17 0)
             both_enabled reverse_line clean_line openValve_line
             switchingValve_line
             [(1000, 1000); (1001, 1001); (2000, 2000); (2001, 2001)]
             {| pump_gpio := pump_line; startTs := 0 |} dark);
      try reflexivity.
    intros c l Hc Hcell. destruct c; try congruence;
      simpl in Hcell; injection Hcell as <-; reflexivity.
  - vm_compute. tauto.
Defined.

(** ** A whole teardown *)

(** The reverse sub-pipeline followed by the clean one, on lines that all
    work: what the sequencer itself does.  The flashing task it starts runs
    beside it and writes the status flags, so nothing is said of the flags
    at the return. *)
Lemma handleReverseGpio_all_working (hw : Hardware) (f : Flags)
    (reverse clean openValve switchingValve : GPIO) (w : World) (y : lights) :
  never_fails hw -> allocated w -> yellow w = Some y ->
  enableClean f = true ->
  exists w',
    handleReverseGpio hw f reverse clean openValve switchingValve w
    = Done tt w'
    /\ trace w' =
       trace w ++
       [EvLine (Chip reverse) (Line reverse) 1 None;
        EvSetFlash rune_G true; EvGoFlashing rune_G;
        EvTelemetry (with_State reverse true);
        EvSleep (reverseTimer f);
        EvLine (Chip reverse) (Line reverse) 0 None;
        EvSetFlash rune_G false;
        EvTelemetry (with_State reverse false);
        EvLine (Chip switchingValve) (Line switchingValve) 1 None;
        EvSleep switchingTimer;
        EvLine (Chip openValve) (Line openValve) 1 None;
        EvSleep openingTimer;
        EvLine (Chip clean) (Line clean) 1 None;
        EvLine (Chip (gpio y)) (Line (gpio y)) 1 None;
        EvTelemetry (with_State clean true);
        EvSleep (cleanTimer f);
        EvLine (Chip clean) (Line clean) 0 None;
        EvLine (Chip (gpio y)) (Line (gpio y)) 0 None;
        EvTelemetry (with_State clean false);
        EvLine (Chip openValve) (Line openValve) 0 None;
        EvSleep openingTimer;
        EvSleep (gravityTimer f);
        EvLine (Chip switchingValve) (Line switchingValve) 0 None;
        EvSleep switchingTimer].
Proof.
  intros Hhw Ha Hyellow Hclean.
  destruct (allocated_inv w Ha) as (g & y1 & r & Hg & Hy & Hr).
  destruct w as [g0 y0 r0 n t]; simpl in Hg, Hy, Hr, Hyellow.
  rewrite Hy in Hyellow. injection Hyellow as ->. subst.
  pose proof (fun k g v => GPIO_set_never_fails hw k g v Hhw) as Hset.
  unfold handleReverseGpio. rewrite Hclean.
  remember (handleCleanGpio hw f clean openValve switchingValve) as K eqn:HK.
  unfold raise_alarm, handleAsyncCommunication, SetFlashOn, SetFlashOff,
    GPIO_Up, GPIO_Down, actuate, bind, deref, set_flashing, assign, Sleep,
    emit, ret; simpl.
  repeat (rewrite Hset; simpl).
  subst K.
  match goal with
  | |- exists w', handleCleanGpio _ _ _ _ _ ?w0 = _ /\ _ =>
      destruct (handleCleanGpio_all_working hw f clean openValve
                  switchingValve w0
                  {| flashing := false; status := status y; color := color y;
                     gpio := gpio y |} Hhw)
        as (w' & Hrun & Htr & _)
  end.
  - unfold allocated; simpl; repeat split; discriminate.
  - reflexivity.
  - exists w'. split; [exact Hrun|].
    rewrite Htr. simpl. rewrite <- !app_assoc. reflexivity.
Qed.

(** With both sub-pipelines enabled and every line working, the pass that
    turns the pump off runs the reverse and then the clean sub-pipeline
    before it reports the pump: the reading for the stopped pump is the last
    of five, sent after all the waits of both sub-pipelines and before the
    command gap.  One flashing task is started, for green.  The lines,
    waits and readings are those of the sequencer itself; the flashing task
    it started drives the green line beside it. *)
Theorem pump_off_pass_with_both (hw : Hardware) (f : Flags)
    (reverse clean openValve switchingValve : GPIO) (now now' : Z) (p : Pump)
    (w : World) (g y : lights) :
  never_fails hw ->
  allocated w -> green w = Some g -> yellow w = Some y ->
  State (pump_gpio p) = true ->
  pumpTimer f <= wrap64 (now - startTs p) ->
  enableReverse f = true -> enableClean f = true ->
  exists w',
    handleStartGpio_iteration hw f reverse clean openValve switchingValve
      now now' p w
    = Done {| pump_gpio := with_State (pump_gpio p) false;
              startTs := startTs p |} w'
    /\ lines_of (trace w') =
       lines_of (trace w) ++
       [(Chip (pump_gpio p), Line (pump_gpio p), 0);
        (Chip (gpio g), Line (gpio g), 0);
        (Chip reverse, Line reverse, 1);
        (Chip reverse, Line reverse, 0);
        (Chip switchingValve, Line switchingValve, 1);
        (Chip openValve, Line openValve, 1);
        (Chip clean, Line clean, 1);
        (Chip (gpio y), Line (gpio y), 1);
        (Chip clean, Line clean, 0);
        (Chip (gpio y), Line (gpio y), 0);
        (Chip openValve, Line openValve, 0);
        (Chip switchingValve, Line switchingValve, 0)]
    /\ sleeps_of (trace w') =
       sleeps_of (trace w) ++
       [reverseTimer f; switchingTimer; openingTimer; cleanTimer f;
        openingTimer; gravityTimer f; switchingTimer; commandGap f]
    /\ telemetry_of (trace w') =
       telemetry_of (trace w) ++
       [with_State reverse true; with_State reverse false;
        with_State clean true; with_State clean false;
        with_State (pump_gpio p) false]
    /\ flash_tasks (trace w') = flash_tasks (trace w) ++ [rune_G].
Proof.
  intros Hhw Ha Hgreen Hyellow Hs Hdue Hrev Hclean.
  destruct (allocated_inv w Ha) as (g1 & y1 & r & Hg & Hy & Hr).
  destruct w as [g0 y0 r0 n t]; simpl in Hg, Hy, Hr, Hgreen, Hyellow.
  rewrite Hg in Hgreen. injection Hgreen as ->.
  rewrite Hy in Hyellow. injection Hyellow as ->. subst.
  pose proof (fun k g v => GPIO_set_never_fails hw k g v Hhw) as Hset.
  assert (E : (wrap64 (now - startTs p) >=? pumpTimer f) = true)
    by (rewrite Z.geb_leb; apply Z.leb_le; exact Hdue).
  unfold handleStartGpio_iteration. rewrite Hs, E, Hrev. cbn [negb].
  remember (handleReverseGpio hw f reverse clean openValve switchingValve)
    as K eqn:HK.
  unfold raise_alarm, handleAsyncCommunication, Down, GPIO_Up, GPIO_Down,
    actuate, bind, deref, set_status, assign, Sleep, emit, ret; simpl.
  repeat (rewrite Hset; simpl).
  subst K.
  match goal with
  | |- context [handleReverseGpio _ _ _ _ _ _ ?w0] =>
      destruct (handleReverseGpio_all_working hw f reverse clean openValve
                  switchingValve w0 y Hhw)
        as (w3 & Hrun & Htr)
  end.
  - unfold allocated; simpl; repeat split; discriminate.
  - reflexivity.
  - exact Hclean.
  - rewrite Hrun. eexists. split; [reflexivity|]. simpl. rewrite Htr. simpl.
    unfold lines_of, sleeps_of, telemetry_of, flash_tasks.
    rewrite !flat_map_app. simpl. rewrite <- !app_assoc. simpl.
    rewrite ?app_nil_r.
    repeat split.
Qed.

Lemma pump_off_pass_with_both_witness :
  exists w',
    handleStartGpio_iteration reliable both_enabled reverse_line clean_line
      openValve_line switchingValve_line 1300 1300
      {| pump_gpio := with_State pump_line true; startTs := 1000 |}
      (board true false false false false true)
    = Done {| pump_gpio := with_State pump_line false; startTs := 1000 |} w'
    /\ telemetry_of (trace w') =
       [with_State reverse_line true; with_State reverse_line false;
        with_State clean_line true; with_State clean_line false;
        with_State pump_line false].
Proof.
  destruct (pump_off_pass_with_both reliable both_enabled reverse_line
              clean_line openValve_line switchingValve_line 1300 1300
              {| pump_gpio := with_State pump_line true; startTs := 1000 |}
              (board true false false false false true)
              (light rune_G 5 true false) (light rune_Y 6 false false))
    as (w' & Hrun & _ & _ & Htel & _).
  - intros n chip line v. split; reflexivity.
  - unfold allocated; simpl; repeat split; discriminate.
  - reflexivity.
  - reflexivity.
  - reflexivity.
  - vm_compute. discriminate.
  - reflexivity.
  - reflexivity.
  - exists w'. split; [exact Hrun|exact Htel].
Defined.

(** ** The default branches, on an example *)

Lemma unknown_colour_is_logged_witness :
  Up reliable 88 boot = Done None boot
  /\ HandleLight (line_on "lamp" 9) boot = Done tt boot
  /\ Flashing reliable 2 undisturbed 88 boot
     = Done (Some (Some "unknown color X"%string)) boot.
Proof.
  destruct (unknown_colour_is_logged reliable 88 (line_on "lamp" 9) 2
              undisturbed boot) as (H1 & H2 & _ & H4 & _).
  - reflexivity.
  - discriminate.
  - discriminate.
  - discriminate.
  - split; [exact H2|]. split; [exact H1|exact H4].
Defined.
